(** * optidash-go: the request builder and its terminal operations

    A shallow embedding of [errors.go], the client constructor and the
    request builder ([execute], [ToJSON], [ToReader], [ToFile], [CopyTo]).

    Go values are modelled as follows.
    - A pointer or a map that may be [nil] is an [option]; a Go result pair
      [(v, err)] is a pair of options, read the way the code reads it
      ([err] first).
    - [P], a [map[string]interface{}], is a [gmap string Any].
    - The process state the code acts on (file system, open files, response
      bodies, caller-supplied writers, the requests handed to the transport)
      is a record [World]; every operation is a function in the monad [M],
      which threads the world and can also end in a run-time panic.
    - Libraries outside this repository ([encoding/json], [fastjson]'s parser,
      [encoding/base64], the default HTTP client) are collected in the record
      [Externals]; the development is parametric in it. *)

From stdpp Require Import gmap strings list fin_maps pretty sorting.
From Stdlib Require Import ZArith Ascii.

Set Warnings "-register-all".

(** ** errors.go *)

(** Go [error] values. The four sentinels and [OptidashError] are declared in
    [errors.go]; [ExternalError] stands for an error produced by the standard
    library or the operating system, tagged with its text. *)
Inductive error : Type :=
| ErrInvalidSourceType
| ErrBinaryWebhook
| ErrBinaryStorage
| ErrNoSuccess
| OptidashError (Code : Z) (Message : string)
| ExternalError (msg : string).

#[global] Instance error_eq_dec : EqDecision error.
Proof. solve_decision. Defined.

Definition error_text (e : error) : string :=
  match e with
  | ErrInvalidSourceType => "optidash: Invalid request source type"
  | ErrBinaryWebhook =>
      "optidash: Webhooks are not supported when using binary responses"
  | ErrBinaryStorage =>
      "optidash: External storage is not supported when using binary responses"
  | ErrNoSuccess => "optidash: Success is missing in the response"
  | OptidashError c m => "optidash: [" +:+ pretty c +:+ "] " +:+ m
  | ExternalError m => m
  end.

(** ** Parameter bags *)

(** The dynamic values a bag can hold ([interface{}]). [AFunc] stands for a
    value [encoding/json] cannot encode (a function, a channel). *)
Inductive Any : Type :=
| ANil
| ABool (b : bool)
| AInt (n : Z)
| AString (s : string)
| AList (l : list Any)
| AMap (m : gmap string Any)
| AFunc.

(** [type P map[string]interface{}]; the [nil] map is [None]. *)
Definition P : Type := option (gmap string Any).

(** [mode == "binary"] on an [interface{}]: true exactly for the string. *)
Definition any_eq_string (a : Any) (s : string) : bool :=
  match a with
  | AString t => bool_decide (t = s)
  | _ => false
  end.

(** ** fastjson values *)

(** A parsed JSON tree. A number keeps its source text, as in fastjson. *)
Inductive Value : Type :=
| VObject (kvs : list (string * Value))
| VArray (a : list Value)
| VString (s : string)
| VNumber (raw : string)
| VTrue
| VFalse
| VNull.

(** [Object.Get]: the first entry with the key. *)
Fixpoint object_get (kvs : list (string * Value)) (key : string) : option Value :=
  match kvs with
  | [] => None
  | (k, v) :: rest => if bool_decide (k = key) then Some v else object_get rest key
  end.

(** The index a key denotes in an array ([strconv.Atoi]: decimal digits after
    an optional plus sign; a negative number is never an index). None of the
    keys the client looks up is one. *)
Fixpoint digits_value (s : string) (acc : nat) : option nat :=
  match s with
  | EmptyString => Some acc
  | String c rest =>
      let n := Ascii.nat_of_ascii c in
      if (48 <=? n)%nat && (n <=? 57)%nat
      then digits_value rest (10 * acc + (n - 48))%nat
      else None
  end.

Definition array_index (key : string) : option nat :=
  match key with
  | EmptyString => None
  | String "+"%char EmptyString => None
  | String "+"%char rest => digits_value rest 0%nat
  | _ => digits_value key 0%nat
  end.

(** [Value.Get(key)] with one key, on a possibly nil receiver. *)
Definition Value_Get (v : option Value) (key : string) : option Value :=
  match v with
  | None => None
  | Some (VObject kvs) => object_get kvs key
  | Some (VArray a) =>
      match array_index key with
      | Some n => a !! n
      | None => None
      end
  | Some _ => None
  end.

(** [Value.Bool()] *)
Definition Value_Bool (v : Value) : bool * option error :=
  match v with
  | VTrue => (true, None)
  | VFalse => (false, None)
  | _ => (false, Some (ExternalError "value doesn't contain bool"))
  end.

(** [Value.StringBytes()] *)
Definition Value_StringBytes (v : Value) : string * option error :=
  match v with
  | VString s => (s, None)
  | _ => (EmptyString, Some (ExternalError "value doesn't contain string"))
  end.

(** ** HTTP messages *)

(** [http.Header]: canonical key to its values. *)
Definition Header : Type := gmap string (list string).

Definition Header_Get (h : Header) (key : string) : string :=
  match h !! key with
  | Some (v :: _) => v
  | _ => EmptyString
  end.

Definition Header_Set (h : Header) (key value : string) : Header :=
  <[key := [value]]> h.

(** One part of a multipart form, as [mime/multipart] writes it. *)
Record Part : Type := {
  part_name : string;
  part_filename : option string;
  part_content_type : option string;
  part_content : string
}.

(** The body handed to [http.NewRequest]: the bytes of a [bytes.Reader], or the
    buffer a [multipart.Writer] filled, kept as its boundary and parts. *)
Inductive Payload : Type :=
| BytesBody (b : string)
| FormBody (boundary : string) (parts : list Part).

(** [context.Context], opaque to the client. *)
Definition context_Context : Type := string.

Record HttpRequest : Type := {
  req_method : string;
  req_url : string;
  req_header : Header;
  req_body : Payload;
  req_context : option context_Context
}.

(** State of a response body ([io.ReadCloser]): what reading it yields (the
    data, then [b_err] or end of file) and whether it was read and closed. *)
Record BodyState : Type := {
  b_data : string;
  b_err : option error;
  b_consumed : bool;
  b_closed : bool
}.

(** What the transport answers: headers and the initial state of the body. *)
Record RespSpec : Type := {
  rs_header : Header;
  rs_body : option BodyState
}.

(** Result of [http.Client.Do]: a response, or an error (with which a response
    whose body is already closed may come along). *)
Inductive DoResult : Type :=
| DoResponse (rs : RespSpec)
| DoError (e : error) (rs : option RespSpec).

(** [*http.Client], seen as the function from a request to its outcome. *)
Record HttpClient : Type := { roundTrip : HttpRequest -> DoResult }.

(** [*http.Response]; the body is a handle into the world's bodies. *)
Record Response : Type := {
  resp_header : Header;
  resp_body : option nat
}.

(** ** The world *)

(** The file tree maps a name, as the program writes it, to a regular file
    (its mode bits and its content) or to a directory. [umask] is the file
    mode creation mask of the process. [write_protected] holds the names the
    operating system will not let the process write to, and the directories
    in which it will not let it create a file (access rights, a read-only
    file system, no space left). *)
Inductive FileNode : Type :=
| RegFile (perm : Z) (content : string)
| Dir.

(** An open [*os.File]. *)
Record FdState : Type := {
  fd_path : string;
  fd_closed : bool
}.

(** A caller-supplied [io.Writer]: what was written to it, how many bytes it
    accepts before failing (if bounded), and whether anybody closed it. *)
Record SinkState : Type := {
  s_written : string;
  s_limit : option nat;
  s_closed : bool
}.

Record World : Type := {
  fs : gmap string FileNode;
  umask : Z;
  write_protected : gset string;
  fds : list FdState;
  bodies : list BodyState;
  sinks : list SinkState;
  sent : list HttpRequest;
  next_boundary : string
}.

Definition set_fs (f : gmap string FileNode) (w : World) : World :=
  {| fs := f; umask := umask w; write_protected := write_protected w;
     fds := fds w; bodies := bodies w; sinks := sinks w;
     sent := sent w; next_boundary := next_boundary w |}.
Definition set_fds (l : list FdState) (w : World) : World :=
  {| fs := fs w; umask := umask w; write_protected := write_protected w;
     fds := l; bodies := bodies w; sinks := sinks w;
     sent := sent w; next_boundary := next_boundary w |}.
Definition set_bodies (l : list BodyState) (w : World) : World :=
  {| fs := fs w; umask := umask w; write_protected := write_protected w;
     fds := fds w; bodies := l; sinks := sinks w;
     sent := sent w; next_boundary := next_boundary w |}.
Definition set_sinks (l : list SinkState) (w : World) : World :=
  {| fs := fs w; umask := umask w; write_protected := write_protected w;
     fds := fds w; bodies := bodies w; sinks := l;
     sent := sent w; next_boundary := next_boundary w |}.
Definition set_sent (l : list HttpRequest) (w : World) : World :=
  {| fs := fs w; umask := umask w; write_protected := write_protected w;
     fds := fds w; bodies := bodies w; sinks := sinks w;
     sent := l; next_boundary := next_boundary w |}.

(** ** The monad of operations *)

(** An operation returns a value and a new world, or panics (a nil
    dereference) in some world. *)
Inductive Outcome (A : Type) : Type :=
| Ret (a : A) (w : World)
| Panic (w : World).
Arguments Ret {A} a w.
Arguments Panic {A} w.

Definition M (A : Type) : Type := World -> Outcome A.

Definition ret {A : Type} (a : A) : M A := fun w => Ret a w.

Definition bind {A B : Type} (m : M A) (k : A -> M B) : M B :=
  fun w =>
    match m w with
    | Ret a w' => k a w'
    | Panic w' => Panic w'
    end.

Definition panic {A : Type} : M A := fun w => Panic w.

(** [defer cleanup] around [body]: the clean-up runs when the body returns
    and also when it panics. *)
Definition defer {A : Type} (cleanup : M unit) (body : M A) : M A :=
  fun w =>
    match body w with
    | Ret a w' =>
        match cleanup w' with
        | Ret _ w'' => Ret a w''
        | Panic w'' => Panic w''
        end
    | Panic w' =>
        match cleanup w' with
        | Ret _ w'' => Panic w''
        | Panic w'' => Panic w''
        end
    end.

Declare Scope go_scope.
Delimit Scope go_scope with go.
Notation "'let*' x := m 'in' k" := (bind m (fun x => k))
  (at level 10, x pattern, m at level 100, k at level 200) : go_scope.
Local Open Scope go_scope.

(** ** Files ([os]) *)

Definition O_RDONLY : Z := 0.
Definition O_WRONLY : Z := 1.
Definition O_RDWR : Z := 2.
Definition O_CREATE : Z := 64.
Definition O_TRUNC : Z := 512.

Definition has_flag (flag bit : Z) : bool := negb (Z.land flag bit =? 0)%Z.

Definition new_fd (name : string) (w : World) : nat * World :=
  (length (fds w), set_fds (fds w ++ [{| fd_path := name; fd_closed := false |}]) w).

(** The bits of [os.FileMode] the system call does not take as they are. *)
Definition ModeSetuid : Z := 8388608.
Definition ModeSetgid : Z := 4194304.
Definition ModeSticky : Z := 1048576.

(** [syscallMode]: the nine permission bits of an [os.FileMode], and its
    setuid, setgid and sticky bits moved to their place in a Unix mode. *)
Definition syscallMode (i : Z) : Z :=
  let o := Z.land i 511 in
  let o := if has_flag i ModeSetuid then Z.lor o 2048 else o in
  let o := if has_flag i ModeSetgid then Z.lor o 1024 else o in
  if has_flag i ModeSticky then Z.lor o 512 else o.

(** The mode a file is created with: the mode asked for, cleared of the
    permission bits set in the umask. *)
Definition created_mode (perm mask : Z) : Z :=
  Z.ldiff (syscallMode perm) (Z.land mask 511).

(** The position of the last slash of a name. *)
Fixpoint last_slash (s : string) : option nat :=
  match s with
  | EmptyString => None
  | String c rest =>
      match last_slash rest with
      | Some n => Some (S n)
      | None => if bool_decide (c = "/"%char) then Some 0%nat else None
      end
  end.

(** The directory a name puts its file in: what precedes the last slash; the
    working directory for a name without a slash, the root for a name whose
    only slash comes first. *)
Definition dir_of (name : string) : string :=
  match last_slash name with
  | None => "."
  | Some 0%nat => "/"
  | Some n => String.substring 0 n name
  end.

(** What follows the last slash. *)
Definition base_of (name : string) : string :=
  match last_slash name with
  | None => name
  | Some n => String.substring (S n) (String.length name - S n) name
  end.

Fixpoint has_nul (s : string) : bool :=
  match s with
  | EmptyString => false
  | String c rest => bool_decide (c = "000"%char) || has_nul rest
  end.

(** The node of a directory name; the working directory and the root are
    always there. *)
Definition lookup_dir (w : World) (d : string) : option FileNode :=
  if bool_decide (d = ".") || bool_decide (d = "/") then Some Dir else fs w !! d.

(** Why a file named [name] cannot be created, if it cannot: the name is
    empty, holds a NUL byte, is too long or names no file (it ends in a
    slash or in a dot component); its directory is missing or is a regular
    file; the process may not write in its directory. *)
Definition create_refused (name : string) (w : World) : option error :=
  if bool_decide (name = EmptyString)
  then Some (ExternalError "open: no such file or directory")
  else if has_nul name
  then Some (ExternalError "open: invalid argument")
  else if (4095 <? String.length name)%nat || (255 <? String.length (base_of name))%nat
  then Some (ExternalError "open: file name too long")
  else if bool_decide (base_of name = EmptyString)
          || bool_decide (base_of name = ".") || bool_decide (base_of name = "..")
  then Some (ExternalError "open: is a directory")
  else
    match lookup_dir w (dir_of name) with
    | Some Dir =>
        if bool_decide (dir_of name ∈ write_protected w)
        then Some (ExternalError "open: permission denied")
        else None
    | Some (RegFile _ _) => Some (ExternalError "open: not a directory")
    | None => Some (ExternalError "open: no such file or directory")
    end.

(** [os.OpenFile(name, flag, perm)]. A directory cannot be opened for
    writing. An existing file keeps its mode; it cannot be opened for writing
    when it is write-protected, and it is emptied under [O_TRUNC]. A missing
    file is an error without [O_CREATE]; with it the file is created, if its
    directory allows it, with the mode [perm] cleared of the bits of the
    umask. Names are taken as they are written: no link is followed and no
    dot component is resolved. *)
Definition os_OpenFile (name : string) (flag perm : Z) : M (option nat * option error) :=
  fun w =>
    let writing := has_flag flag O_WRONLY || has_flag flag O_RDWR in
    match fs w !! name with
    | Some Dir =>
        if writing
        then Ret (None, Some (ExternalError "open: is a directory")) w
        else let '(fd, w') := new_fd name w in Ret (Some fd, None) w'
    | Some (RegFile mode content) =>
        if writing && bool_decide (name ∈ write_protected w)
        then Ret (None, Some (ExternalError "open: permission denied")) w
        else
          let content' := if has_flag flag O_TRUNC then EmptyString else content in
          let '(fd, w') :=
            new_fd name (set_fs (<[name := RegFile mode content']> (fs w)) w) in
          Ret (Some fd, None) w'
    | None =>
        if has_flag flag O_CREATE
        then
          match create_refused name w with
          | Some e => Ret (None, Some e) w
          | None =>
              let mode := created_mode perm (umask w) in
              let '(fd, w') :=
                new_fd name (set_fs (<[name := RegFile mode EmptyString]> (fs w)) w) in
              Ret (Some fd, None) w'
          end
        else Ret (None, Some (ExternalError "open: no such file or directory")) w
    end.

(** [file.Close()] on a [*os.File] that may be nil; the callers drop its
    result. *)
Definition File_Close (file : option nat) : M unit :=
  fun w =>
    match file with
    | Some fd =>
        match fds w !! fd with
        | Some st =>
            Ret tt (set_fds (<[fd := {| fd_path := fd_path st;
                                        fd_closed := true |}]> (fds w)) w)
        | None => Ret tt w
        end
    | None => Ret tt w
    end.

(** [resp.Body.Close()]; the callers drop its result. *)
Definition Body_Close (h : nat) : M unit :=
  fun w =>
    match bodies w !! h with
    | Some st =>
        Ret tt (set_bodies (<[h := {| b_data := b_data st; b_err := b_err st;
                                      b_consumed := b_consumed st;
                                      b_closed := true |}]> (bodies w)) w)
    | None => Ret tt w
    end.

(** ** Readers and writers ([io]) *)

(** A caller-supplied [io.Reader]: its data, then [in_err] or end of file. *)
Record InStream : Type := {
  in_data : string;
  in_err : option error
}.

(** The dynamic type behind an [io.Reader] value. *)
Inductive io_Reader : Type :=
| StreamReader (s : InStream)
| FileReader (file : option nat)
| BodyReader (h : nat).

(** The dynamic type behind an [io.Writer] value. *)
Inductive io_Writer : Type :=
| FileWriter (file : option nat)
| SinkWriter (k : nat).

(** Reading a reader to its end ([ioutil.ReadAll], and the reading side of
    [io.Copy]): the bytes obtained and the error that stopped the reading,
    end of file being no error. A nil reader panics; a nil [*os.File] behind
    the reader is an error. *)
Definition io_ReadAll (r : option io_Reader) : M (string * option error) :=
  fun w =>
    match r with
    | None => Panic w
    | Some (StreamReader s) => Ret (in_data s, in_err s) w
    | Some (FileReader file) =>
        match file ≫= (fds w !!.) with
        | Some st =>
            if fd_closed st
            then Ret (EmptyString, Some (ExternalError "read: file already closed")) w
            else
              match fs w !! fd_path st with
              | Some (RegFile _ content) => Ret (content, None) w
              | _ => Ret (EmptyString, Some (ExternalError "read: is a directory")) w
              end
        | None => Ret (EmptyString, Some (ExternalError "read: invalid argument")) w
        end
    | Some (BodyReader h) =>
        match bodies w !! h with
        | Some st =>
            if b_closed st
            then Ret (EmptyString,
                      Some (ExternalError "http: read on closed response body")) w
            else if b_consumed st
            then Ret (EmptyString, b_err st) w
            else
              Ret (b_data st, b_err st)
                  (set_bodies (<[h := {| b_data := b_data st; b_err := b_err st;
                                         b_consumed := true;
                                         b_closed := false |}]> (bodies w)) w)
        | None => Panic w
        end
    end.

(** Writing [data] to a writer: a file takes everything, appended to its
    content (the builder writes only to a file it has just emptied); a sink
    takes everything up to its limit. *)
Definition io_Write (dst : option io_Writer) (data : string) : M (option error) :=
  fun w =>
    match dst with
    | None => Panic w
    | Some (FileWriter file) =>
        match file ≫= (fds w !!.) with
        | Some st =>
            if fd_closed st
            then Ret (Some (ExternalError "write: file already closed")) w
            else
              match fs w !! fd_path st with
              | Some (RegFile mode content) =>
                  Ret None
                      (set_fs (<[fd_path st := RegFile mode (content +:+ data)]> (fs w)) w)
              | _ => Ret (Some (ExternalError "write: bad file descriptor")) w
              end
        | None => Ret (Some (ExternalError "write: invalid argument")) w
        end
    | Some (SinkWriter k) =>
        match sinks w !! k with
        | Some st =>
            let room :=
              match s_limit st with
              | Some n => (n - String.length (s_written st))%nat
              | None => String.length data
              end in
            let taken := String.substring 0 room data in
            let st' := {| s_written := s_written st +:+ taken;
                          s_limit := s_limit st; s_closed := s_closed st |} in
            Ret (if (String.length data <=? room)%nat then None
                 else Some (ExternalError "write: short write"))
                (set_sinks (<[k := st']> (sinks w)) w)
        | None => Panic w
        end
    end.

(** [io.Copy(dst, src)]: everything [src] yields goes to [dst]; the error is
    the writer's if it failed, else the reader's. *)
Definition io_Copy (dst : option io_Writer) (src : option io_Reader) : M (option error) :=
  let* (data, rerr) := io_ReadAll src in
  let* werr := io_Write dst data in
  ret (match werr with
       | Some e => Some e
       | None => rerr
       end).

(** ** Libraries outside the repository *)

(** [json_Marshal] is [json.Marshal] on the parameter map; [fastjson_Parse] is
    [Parser.Parse] and [Parser.ParseBytes], whose tree is a pointer;
    [number_Int] is what [Value.Int] makes of the text of a number;
    [base64_Encode] is the standard base64 encoding; [http_DefaultClient] is
    [http.DefaultClient]. *)
Record Externals : Type := {
  json_Marshal : gmap string Any -> string * option error;
  fastjson_Parse : string -> option Value * option error;
  number_Int : string -> Z * option error;
  base64_Encode : string -> string;
  http_DefaultClient : option HttpClient
}.

(** ** The client *)

Definition apiURL : string := "https://api.optidash.ai/1.0".

(** [type Client struct]; [Client_http] is its field [Client]. *)
Record Client : Type := {
  Key : string;
  Client_http : option HttpClient
}.

(** [NewClient]: the key must not be empty. *)
Definition NewClient (ext : Externals) (key : string) : option Client * option error :=
  if bool_decide (key = EmptyString)
  then (None, Some (ExternalError "Invalid configuration, API key is empty"))
  else (Some {| Key := key; Client_http := http_DefaultClient ext |}, None).

(** [type source int] and its three constants. *)
Definition readerSource : Z := 0.
Definition pathSource : Z := 1.
Definition fetchSource : Z := 2.

(** [type Request struct] *)
Record Request : Type := {
  client : option Client;
  http : option HttpClient;
  source : Z;
  reader : option InStream;
  location : string;
  context : option context_Context;
  optimize : P;
  flip : P;
  resize : P;
  scale : P;
  crop : P;
  watermark : P;
  mask : P;
  stylize : P;
  adjust : P;
  auto : P;
  border : P;
  padding : P;
  store : P;
  output : P;
  webhook : P;
  response : P;
  cdn : P
}.

(** The argument of [Upload], an [interface{}] the code switches on. *)
Inductive UploadInput : Type :=
| InputReader (v : InStream)
| InputPath (v : string)
| InputOther.

Definition new_Request (c : Client) (src : Z) (rd : option InStream) (loc : string) : Request :=
  {| client := Some c; http := Client_http c; source := src; reader := rd;
     location := loc; context := None;
     optimize := None; flip := None; resize := None; scale := None;
     crop := None; watermark := None; mask := None; stylize := None;
     adjust := None; auto := None; border := None; padding := None;
     store := None; output := None; webhook := None; response := None;
     cdn := None |}.

Definition Upload (c : Client) (input : UploadInput) : option Request :=
  match input with
  | InputReader v => Some (new_Request c readerSource (Some v) EmptyString)
  | InputPath v => Some (new_Request c pathSource None v)
  | InputOther => None
  end.

Definition Fetch (c : Client) (url : string) : Request :=
  new_Request c fetchSource None url.

(** ** The chained setters *)

(** [HTTPClient] replaces the client used to execute the request. *)
Definition HTTPClient (r : Request) (client' : option HttpClient) : Request :=
  {| client := client r; http := client'; source := source r;
     reader := reader r; location := location r; context := context r;
     optimize := optimize r; flip := flip r; resize := resize r;
     scale := scale r; crop := crop r; watermark := watermark r;
     mask := mask r; stylize := stylize r; adjust := adjust r; auto := auto r;
     border := border r; padding := padding r; store := store r;
     output := output r; webhook := webhook r; response := response r;
     cdn := cdn r |}.

(** [Optimize] stores the bag in the field [optimize]. *)
Definition Optimize (r : Request) (data : P) : Request :=
  {| client := client r; http := http r; source := source r;
     reader := reader r; location := location r; context := context r;
     optimize := data; flip := flip r; resize := resize r; scale := scale r;
     crop := crop r; watermark := watermark r; mask := mask r;
     stylize := stylize r; adjust := adjust r; auto := auto r;
     border := border r; padding := padding r; store := store r;
     output := output r; webhook := webhook r; response := response r;
     cdn := cdn r |}.

(** [Flip] stores the bag in the field [flip]. *)
Definition Flip (r : Request) (data : P) : Request :=
  {| client := client r; http := http r; source := source r;
     reader := reader r; location := location r; context := context r;
     optimize := optimize r; flip := data; resize := resize r;
     scale := scale r; crop := crop r; watermark := watermark r;
     mask := mask r; stylize := stylize r; adjust := adjust r; auto := auto r;
     border := border r; padding := padding r; store := store r;
     output := output r; webhook := webhook r; response := response r;
     cdn := cdn r |}.

(** [Resize] stores the bag in the field [resize]. *)
Definition Resize (r : Request) (data : P) : Request :=
  {| client := client r; http := http r; source := source r;
     reader := reader r; location := location r; context := context r;
     optimize := optimize r; flip := flip r; resize := data; scale := scale r;
     crop := crop r; watermark := watermark r; mask := mask r;
     stylize := stylize r; adjust := adjust r; auto := auto r;
     border := border r; padding := padding r; store := store r;
     output := output r; webhook := webhook r; response := response r;
     cdn := cdn r |}.

(** [Scale] stores the bag in the field [scale]. *)
Definition Scale (r : Request) (data : P) : Request :=
  {| client := client r; http := http r; source := source r;
     reader := reader r; location := location r; context := context r;
     optimize := optimize r; flip := flip r; resize := resize r;
     scale := data; crop := crop r; watermark := watermark r; mask := mask r;
     stylize := stylize r; adjust := adjust r; auto := auto r;
     border := border r; padding := padding r; store := store r;
     output := output r; webhook := webhook r; response := response r;
     cdn := cdn r |}.

(** [Crop] stores the bag in the field [crop]. *)
Definition Crop (r : Request) (data : P) : Request :=
  {| client := client r; http := http r; source := source r;
     reader := reader r; location := location r; context := context r;
     optimize := optimize r; flip := flip r; resize := resize r;
     scale := scale r; crop := data; watermark := watermark r; mask := mask r;
     stylize := stylize r; adjust := adjust r; auto := auto r;
     border := border r; padding := padding r; store := store r;
     output := output r; webhook := webhook r; response := response r;
     cdn := cdn r |}.

(** [Watermark] stores the bag in the field [watermark]. *)
Definition Watermark (r : Request) (data : P) : Request :=
  {| client := client r; http := http r; source := source r;
     reader := reader r; location := location r; context := context r;
     optimize := optimize r; flip := flip r; resize := resize r;
     scale := scale r; crop := crop r; watermark := data; mask := mask r;
     stylize := stylize r; adjust := adjust r; auto := auto r;
     border := border r; padding := padding r; store := store r;
     output := output r; webhook := webhook r; response := response r;
     cdn := cdn r |}.

(** [Mask] stores the bag in the field [mask]. *)
Definition Mask (r : Request) (data : P) : Request :=
  {| client := client r; http := http r; source := source r;
     reader := reader r; location := location r; context := context r;
     optimize := optimize r; flip := flip r; resize := resize r;
     scale := scale r; crop := crop r; watermark := watermark r; mask := data;
     stylize := stylize r; adjust := adjust r; auto := auto r;
     border := border r; padding := padding r; store := store r;
     output := output r; webhook := webhook r; response := response r;
     cdn := cdn r |}.

(** [Stylize] stores the bag in the field [stylize]. *)
Definition Stylize (r : Request) (data : P) : Request :=
  {| client := client r; http := http r; source := source r;
     reader := reader r; location := location r; context := context r;
     optimize := optimize r; flip := flip r; resize := resize r;
     scale := scale r; crop := crop r; watermark := watermark r;
     mask := mask r; stylize := data; adjust := adjust r; auto := auto r;
     border := border r; padding := padding r; store := store r;
     output := output r; webhook := webhook r; response := response r;
     cdn := cdn r |}.

(** [Adjust] stores the bag in the field [adjust]. *)
Definition Adjust (r : Request) (data : P) : Request :=
  {| client := client r; http := http r; source := source r;
     reader := reader r; location := location r; context := context r;
     optimize := optimize r; flip := flip r; resize := resize r;
     scale := scale r; crop := crop r; watermark := watermark r;
     mask := mask r; stylize := stylize r; adjust := data; auto := auto r;
     border := border r; padding := padding r; store := store r;
     output := output r; webhook := webhook r; response := response r;
     cdn := cdn r |}.

(** [Auto] stores the bag in the field [auto]. *)
Definition Auto (r : Request) (data : P) : Request :=
  {| client := client r; http := http r; source := source r;
     reader := reader r; location := location r; context := context r;
     optimize := optimize r; flip := flip r; resize := resize r;
     scale := scale r; crop := crop r; watermark := watermark r;
     mask := mask r; stylize := stylize r; adjust := adjust r; auto := data;
     border := border r; padding := padding r; store := store r;
     output := output r; webhook := webhook r; response := response r;
     cdn := cdn r |}.

(** [Border] stores the bag in the field [border]. *)
Definition Border (r : Request) (data : P) : Request :=
  {| client := client r; http := http r; source := source r;
     reader := reader r; location := location r; context := context r;
     optimize := optimize r; flip := flip r; resize := resize r;
     scale := scale r; crop := crop r; watermark := watermark r;
     mask := mask r; stylize := stylize r; adjust := adjust r; auto := auto r;
     border := data; padding := padding r; store := store r;
     output := output r; webhook := webhook r; response := response r;
     cdn := cdn r |}.

(** [Padding] stores the bag in the field [padding]. *)
Definition Padding (r : Request) (data : P) : Request :=
  {| client := client r; http := http r; source := source r;
     reader := reader r; location := location r; context := context r;
     optimize := optimize r; flip := flip r; resize := resize r;
     scale := scale r; crop := crop r; watermark := watermark r;
     mask := mask r; stylize := stylize r; adjust := adjust r; auto := auto r;
     border := border r; padding := data; store := store r;
     output := output r; webhook := webhook r; response := response r;
     cdn := cdn r |}.

(** [Store] stores the bag in the field [store]. *)
Definition Store (r : Request) (data : P) : Request :=
  {| client := client r; http := http r; source := source r;
     reader := reader r; location := location r; context := context r;
     optimize := optimize r; flip := flip r; resize := resize r;
     scale := scale r; crop := crop r; watermark := watermark r;
     mask := mask r; stylize := stylize r; adjust := adjust r; auto := auto r;
     border := border r; padding := padding r; store := data;
     output := output r; webhook := webhook r; response := response r;
     cdn := cdn r |}.

(** [Output] stores the bag in the field [output]. *)
Definition Output (r : Request) (data : P) : Request :=
  {| client := client r; http := http r; source := source r;
     reader := reader r; location := location r; context := context r;
     optimize := optimize r; flip := flip r; resize := resize r;
     scale := scale r; crop := crop r; watermark := watermark r;
     mask := mask r; stylize := stylize r; adjust := adjust r; auto := auto r;
     border := border r; padding := padding r; store := store r;
     output := data; webhook := webhook r; response := response r;
     cdn := cdn r |}.

(** [Webhook] stores the bag in the field [webhook]. *)
Definition Webhook (r : Request) (data : P) : Request :=
  {| client := client r; http := http r; source := source r;
     reader := reader r; location := location r; context := context r;
     optimize := optimize r; flip := flip r; resize := resize r;
     scale := scale r; crop := crop r; watermark := watermark r;
     mask := mask r; stylize := stylize r; adjust := adjust r; auto := auto r;
     border := border r; padding := padding r; store := store r;
     output := output r; webhook := data; response := response r;
     cdn := cdn r |}.

(** [CDN] stores the bag in the field [cdn]. *)
Definition CDN (r : Request) (data : P) : Request :=
  {| client := client r; http := http r; source := source r;
     reader := reader r; location := location r; context := context r;
     optimize := optimize r; flip := flip r; resize := resize r;
     scale := scale r; crop := crop r; watermark := watermark r;
     mask := mask r; stylize := stylize r; adjust := adjust r; auto := auto r;
     border := border r; padding := padding r; store := store r;
     output := output r; webhook := webhook r; response := response r;
     cdn := data |}.

(** The assignment [r.response = data] of [ToReader]; no setter is exported for this field. *)
Definition set_response (r : Request) (data : P) : Request :=
  {| client := client r; http := http r; source := source r;
     reader := reader r; location := location r; context := context r;
     optimize := optimize r; flip := flip r; resize := resize r;
     scale := scale r; crop := crop r; watermark := watermark r;
     mask := mask r; stylize := stylize r; adjust := adjust r; auto := auto r;
     border := border r; padding := padding r; store := store r;
     output := output r; webhook := webhook r; response := data; cdn := cdn r |}.

(** [Context] sets the context of the HTTP request. *)
Definition Context_ (r : Request) (ctx : option context_Context) : Request :=
  {| client := client r; http := http r; source := source r;
     reader := reader r; location := location r; context := ctx;
     optimize := optimize r; flip := flip r; resize := resize r;
     scale := scale r; crop := crop r; watermark := watermark r;
     mask := mask r; stylize := stylize r; adjust := adjust r; auto := auto r;
     border := border r; padding := padding r; store := store r;
     output := output r; webhook := webhook r; response := response r;
     cdn := cdn r |}.

(** ** [mime/multipart] and [net/http] as the builder uses them *)

(** A [multipart.Writer] over an in-memory buffer: the boundary it drew and
    the parts written so far. Writing to a [bytes.Buffer] does not fail, so
    its operations return a nil error. *)
Record FormWriter : Type := {
  mw_boundary : string;
  mw_parts : list Part
}.

Definition multipart_NewWriter : M FormWriter :=
  fun w => Ret {| mw_boundary := next_boundary w; mw_parts := [] |} w.

Definition CreateFormFile (fw : FormWriter) (fieldname filename : string)
  : FormWriter * option error :=
  ({| mw_boundary := mw_boundary fw;
      mw_parts := mw_parts fw ++
        [{| part_name := fieldname; part_filename := Some filename;
            part_content_type := Some "application/octet-stream";
            part_content := EmptyString |}] |}, None).

(** Bytes written to the part opened last. *)
Definition part_Write (fw : FormWriter) (data : string) : FormWriter :=
  match reverse (mw_parts fw) with
  | [] => fw
  | p :: before =>
      {| mw_boundary := mw_boundary fw;
         mw_parts := reverse before ++
           [{| part_name := part_name p; part_filename := part_filename p;
               part_content_type := part_content_type p;
               part_content := part_content p +:+ data |}] |}
  end.

Definition WriteField (fw : FormWriter) (fieldname value : string)
  : FormWriter * option error :=
  ({| mw_boundary := mw_boundary fw;
      mw_parts := mw_parts fw ++
        [{| part_name := fieldname; part_filename := None;
            part_content_type := None; part_content := value |}] |}, None).

Definition FormWriter_Close (fw : FormWriter) : option error := None.

Definition FormDataContentType (fw : FormWriter) : string :=
  "multipart/form-data; boundary=" +:+ mw_boundary fw.

(** [http.NewRequest]: the method is a valid token and the URL is the constant
    base with a fixed suffix, so no error arises. *)
Definition http_NewRequest (method url : string) (body : Payload)
  : HttpRequest * option error :=
  ({| req_method := method; req_url := url; req_header := ∅;
      req_body := body; req_context := None |}, None).

Definition Request_Header_Set (q : HttpRequest) (key value : string) : HttpRequest :=
  {| req_method := req_method q; req_url := req_url q;
     req_header := Header_Set (req_header q) key value;
     req_body := req_body q; req_context := req_context q |}.

Definition WithContext (q : HttpRequest) (ctx : context_Context) : HttpRequest :=
  {| req_method := req_method q; req_url := req_url q;
     req_header := req_header q;
     req_body := req_body q; req_context := Some ctx |}.

Definition SetBasicAuth (ext : Externals) (q : HttpRequest) (username password : string)
  : HttpRequest :=
  Request_Header_Set q "Authorization"
    ("Basic " +:+ base64_Encode ext (username +:+ ":" +:+ password)).

(** The response object for what the transport answered; its body, if any,
    becomes a new entry of the world. *)
Definition new_response (rs : RespSpec) (w : World) : Response * World :=
  match rs_body rs with
  | Some st =>
      ({| resp_header := rs_header rs; resp_body := Some (length (bodies w)) |},
       set_bodies (bodies w ++ [st]) w)
  | None => ({| resp_header := rs_header rs; resp_body := None |}, w)
  end.

(** [client.Do(request)]: the request reaches the transport (it is recorded
    in [sent]) and the answer comes back. A nil client panics. *)
Definition http_Do (c : option HttpClient) (q : HttpRequest)
  : M (option Response * option error) :=
  fun w =>
    match c with
    | None => Panic w
    | Some cl =>
        let w1 := set_sent (sent w ++ [q]) w in
        match roundTrip cl q with
        | DoResponse rs =>
            let '(resp, w2) := new_response rs w1 in Ret (Some resp, None) w2
        | DoError e None => Ret (None, Some e) w1
        | DoError e (Some rs) =>
            let '(resp, w2) := new_response rs w1 in Ret (Some resp, Some e) w2
        end
    end.

(** ** The request builder: [execute] and the terminal operations *)

Section Builder.

Context (ext : Externals).

(** [Value.Int()] *)
Definition Value_Int (v : Value) : Z * option error :=
  match v with
  | VNumber raw => number_Int ext raw
  | _ => (0%Z, Some (ExternalError "value doesn't contain number"))
  end.

(** [if bag != nil { params[name] = bag }] *)
Definition put_step (name : string) (bag : P) (params : gmap string Any)
  : gmap string Any :=
  match bag with
  | Some m => <[name := AMap m]> params
  | None => params
  end.

(** The parameter map [execute] builds before encoding it. *)
Definition build_params (r : Request) : gmap string Any :=
  let params : gmap string Any := ∅ in
  let params := put_step "resize" (resize r) params in
  let params := put_step "scale" (scale r) params in
  let params := put_step "crop" (crop r) params in
  let params := put_step "watermark" (watermark r) params in
  let params := put_step "mask" (mask r) params in
  let params := put_step "stylize" (stylize r) params in
  let params := put_step "adjust" (adjust r) params in
  let params := put_step "auto" (auto r) params in
  let params := put_step "border" (border r) params in
  let params := put_step "padding" (padding r) params in
  let params := put_step "store" (store r) params in
  let params := put_step "output" (output r) params in
  let params := put_step "webhook" (webhook r) params in
  let params := put_step "response" (response r) params in
  let params := put_step "cdn" (cdn r) params in
  if bool_decide (source r = fetchSource)
  then <["url" := AString (location r)]> params
  else params.

(** The end of [execute]: the request is created, gets its headers and its
    context, and is run by the client of the builder. *)
Definition execute_send (r : Request) (url contentType : string) (body : Payload)
  : M (option Response * option error) :=
  let '(request, err) := http_NewRequest "POST" url body in
  match err with
  | Some e => ret (None, Some e)
  | None =>
      let request := Request_Header_Set request "Content-Type" contentType in
      let request :=
        match context r with
        | Some ctx => WithContext request ctx
        | None => request
        end in
      let request :=
        match response r with
        | Some m =>
            match m !! "mode" with
            | Some mode =>
                if any_eq_string mode "binary"
                then Request_Header_Set request "X-Optidash-Binary" "1"
                else request
            | None => request
            end
        | None => request
        end in
      match client r with
      | None => panic
      | Some c =>
          let request := SetBasicAuth ext request (Key c) EmptyString in
          http_Do (http r) request
      end
  end.

(** The upload branch of [execute] once [file] is chosen: the multipart body
    with the file part and the data field, then the sending. *)
Definition execute_upload (r : Request) (pb : string) (file : option io_Reader)
  : M (option Response * option error) :=
  let url := apiURL +:+ "/upload" in
  let* writer := multipart_NewWriter in
  let '(writer, err) := CreateFormFile writer "file" EmptyString in
  match err with
  | Some e => ret (None, Some e)
  | None =>
      let* (data, err) := io_ReadAll file in
      let writer := part_Write writer data in
      match err with
      | Some e => ret (None, Some e)
      | None =>
          let '(writer, err) := WriteField writer "data" pb in
          match err with
          | Some e => ret (None, Some e)
          | None =>
              match FormWriter_Close writer with
              | Some e => ret (None, Some e)
              | None =>
                  let contentType := FormDataContentType writer in
                  execute_send r url contentType
                    (FormBody (mw_boundary writer) (mw_parts writer))
              end
          end
      end
  end.

(** [execute], the internal execution function of HTTP requests: the response
    and the error of the exchange. *)
Definition execute (r : Request) : M (option Response * option error) :=
  let params := build_params r in
  let '(pb, err) := json_Marshal ext params in
  match err with
  | Some e => ret (None, Some e)
  | None =>
      if bool_decide (source r = fetchSource) then
        execute_send r (apiURL +:+ "/fetch") "application/json" (BytesBody pb)
      else if bool_decide (source r = readerSource)
                || bool_decide (source r = pathSource) then
        if bool_decide (source r = readerSource) then
          execute_upload r pb (StreamReader <$> reader r)
        else if bool_decide (source r = pathSource) then
          let* (fs, err) := os_OpenFile (location r) O_RDONLY 384 in
          match err with
          | Some e => ret (None, Some e)
          | None =>
              defer (File_Close fs) (execute_upload r pb (Some (FileReader fs)))
          end
        else execute_upload r pb None
      else ret (None, Some ErrInvalidSourceType)
  end.

(** [ToJSON] runs the request and returns the parsed result of the API. *)
Definition ToJSON (r : Request) : M (option Value * option error) :=
  let* (resp, err) := execute r in
  match err, resp with
  | Some e, _ => ret (None, Some e)
  | None, None => panic
  | None, Some resp =>
      let* (body, err) := io_ReadAll (BodyReader <$> resp_body resp) in
      match err with
      | Some e => ret (None, Some e)
      | None =>
          let '(result, err) := fastjson_Parse ext body in
          match err with
          | Some e => ret (None, Some e)
          | None =>
              match result with
              | Some _ =>
                  match Value_Get result "success" with
                  | None => ret (None, Some ErrNoSuccess)
                  | Some value =>
                      let '(success, err) := Value_Bool value in
                      match err with
                      | Some _ => ret (None, Some ErrNoSuccess)
                      | None =>
                          if negb success then
                            match Value_Get result "code" with
                            | None => ret (None, Some ErrNoSuccess)
                            | Some codeValue =>
                                let '(code, err2) := Value_Int codeValue in
                                let Code := if err2 is None then code else 0%Z in
                                match Value_Get result "message" with
                                | None => ret (None, Some ErrNoSuccess)
                                | Some messageValue =>
                                    let '(message, err2) :=
                                      Value_StringBytes messageValue in
                                    let Message :=
                                      if err2 is None then message else EmptyString in
                                    ret (None, Some (OptidashError Code Message))
                                end
                            end
                          else ret (result, None)
                      end
                  end
              | None => ret (result, None)
              end
          end
      end
  end.

(** The function [ToReader] defers: it closes the body unless [succeeded]. *)
Definition close_unless (succeeded : bool) (resp : option Response) : M unit :=
  if negb succeeded then
    match resp with
    | Some rp =>
        match resp_body rp with
        | Some h => Body_Close h
        | None => ret tt
        end
    | None => ret tt
    end
  else ret tt.

(** A deferred function that reads a variable of the body: the body returns
    the final value of that variable next to its result; a panic leaves it at
    its initial value [false]. *)
Definition defer_reading {A : Type} (cleanup : bool -> M unit) (body : M (bool * A))
  : M A :=
  fun w =>
    match body w with
    | Ret (flag, a) w' =>
        match cleanup flag w' with
        | Ret _ w'' => Ret a w''
        | Panic w'' => Panic w''
        end
    | Panic w' =>
        match cleanup false w' with
        | Ret _ w'' => Panic w''
        | Panic w'' => Panic w''
        end
    end.

(** [r.response = P{"mode": "binary"}] *)
Definition binary_request (r : Request) : Request :=
  set_response r (Some {["mode" := AString "binary"]}).

(** [ToReader] executes the request in binary mode and returns the meta
    object, the body as an [io.ReadCloser] and the error. *)
Definition ToReader (r : Request) : M (option Value * option nat * option error) :=
  match webhook r with
  | Some _ => ret (None, None, Some ErrBinaryWebhook)
  | None =>
  match store r with
  | Some _ => ret (None, None, Some ErrBinaryStorage)
  | None =>
      let r := binary_request r in
      let* (resp, err) := execute r in
      defer_reading (fun succeeded => close_unless succeeded resp)
        (match err, resp with
         | Some e, _ => ret (false, (None, None, Some e))
         | None, None => panic
         | None, Some rp =>
             let sm := Header_Get (resp_header rp) "X-Optidash-Meta" in
             let '(meta, err) :=
               if bool_decide (sm ≠ EmptyString)
               then fastjson_Parse ext sm
               else (None, None) in
             match err with
             | Some e => ret (false, (None, None, Some e))
             | None =>
                 match meta with
                 | Some _ =>
                     match Value_Get meta "success" with
                     | None => ret (false, (None, None, Some ErrNoSuccess))
                     | Some successValue =>
                         let '(success, err) := Value_Bool successValue in
                         match err with
                         | Some _ => ret (false, (None, None, Some ErrNoSuccess))
                         | None =>
                             if negb success then
                               match Value_Get meta "code" with
                               | None => ret (false, (None, None, Some ErrNoSuccess))
                               | Some codeValue =>
                                   let '(code, err2) := Value_Int codeValue in
                                   let Code := if err2 is None then code else 0%Z in
                                   match Value_Get meta "message" with
                                   | None =>
                                       ret (false, (None, None, Some ErrNoSuccess))
                                   | Some messageValue =>
                                       let '(message, err2) :=
                                         Value_StringBytes messageValue in
                                       let Message :=
                                         if err2 is None then message
                                         else EmptyString in
                                       ret (false,
                                            (None, None,
                                             Some (OptidashError Code Message)))
                                   end
                               end
                             else ret (true, (meta, resp_body rp, None))
                         end
                     end
                 | None => ret (true, (meta, resp_body rp, None))
                 end
             end
         end)
  end
  end.

(** [ToFile] executes the request and saves the result into the file at
    [input], created with mode [perm] if it does not exist. *)
Definition ToFile (r : Request) (input : string) (perm : Z)
  : M (option Value * option error) :=
  let* (meta, reader, err) := ToReader r in
  match err with
  | Some e => ret (None, Some e)
  | None =>
      let* (file, err) :=
        os_OpenFile input (Z.lor (Z.lor O_CREATE O_RDWR) O_TRUNC) perm in
      match err with
      | Some e => ret (None, Some e)
      | None =>
          defer (File_Close file)
            (let* err := io_Copy (Some (FileWriter file)) (BodyReader <$> reader) in
             match err with
             | Some e => ret (None, Some e)
             | None => ret (meta, None)
             end)
      end
  end.

(** [CopyTo] executes the request and copies the result into the writer
    [input]. *)
Definition CopyTo (r : Request) (input : option io_Writer)
  : M (option Value * option error) :=
  let* (meta, reader, err) := ToReader r in
  match err with
  | Some e => ret (None, Some e)
  | None =>
      let* err := io_Copy input (BodyReader <$> reader) in
      match err with
      | Some e => ret (None, Some e)
      | None => ret (meta, None)
      end
  end.

End Builder.

(** ** A concrete set of libraries

    A small JSON reader and writer, a decimal reader, base64 and a default
    transport: one instance of [Externals], on which the general statements
    below are run on concrete requests. *)

Module MiniJSON.

Definition dquote : ascii := "034"%char.
Definition backslash : ascii := "092"%char.

(** [quoted s] is [s] between double quotes. *)
Definition quoted (s : string) : string :=
  String dquote (s +:+ String dquote EmptyString).

Definition is_space (c : ascii) : bool :=
  let n := Ascii.nat_of_ascii c in
  (n =? 32)%nat || (n =? 9)%nat || (n =? 10)%nat || (n =? 13)%nat.

Definition is_digit (c : ascii) : bool :=
  let n := Ascii.nat_of_ascii c in (48 <=? n)%nat && (n <=? 57)%nat.

Definition is_number_char (c : ascii) : bool :=
  is_digit c || Ascii.eqb c "-" || Ascii.eqb c "+" || Ascii.eqb c "."
  || Ascii.eqb c "e" || Ascii.eqb c "E".

Fixpoint skip_space (s : string) : string :=
  match s with
  | String c rest => if is_space c then skip_space rest else s
  | EmptyString => s
  end.

(** The characters up to the closing quote, and what follows it. Escapes are
    not supported. *)
Fixpoint scan_string (s : string) : option (string * string) :=
  match s with
  | EmptyString => None
  | String c rest =>
      if Ascii.eqb c dquote then Some (EmptyString, rest)
      else if Ascii.eqb c backslash then None
      else
        match scan_string rest with
        | Some (body, tail) => Some (String c body, tail)
        | None => None
        end
  end.

Fixpoint scan_number (s : string) : string * string :=
  match s with
  | String c rest =>
      if is_number_char c
      then let '(num, tail) := scan_number rest in (String c num, tail)
      else (EmptyString, s)
  | EmptyString => (EmptyString, s)
  end.

Fixpoint strip_prefix (p s : string) : option string :=
  match p, s with
  | EmptyString, _ => Some s
  | String a p', String b s' => if Ascii.eqb a b then strip_prefix p' s' else None
  | String _ _, EmptyString => None
  end.

Fixpoint parse_value (fuel : nat) (s : string) : option (Value * string) :=
  match fuel with
  | O => None
  | S fuel =>
      match skip_space s with
      | EmptyString => None
      | String c rest =>
          if Ascii.eqb c "{" then
            match skip_space rest with
            | String "}" tail => Some (VObject [], tail)
            | _ => parse_members fuel rest []
            end
          else if Ascii.eqb c "[" then
            match skip_space rest with
            | String "]" tail => Some (VArray [], tail)
            | _ => parse_elements fuel rest []
            end
          else if Ascii.eqb c dquote then
            match scan_string rest with
            | Some (body, tail) => Some (VString body, tail)
            | None => None
            end
          else if is_digit c || Ascii.eqb c "-" then
            let '(num, tail) := scan_number (String c rest) in
            Some (VNumber num, tail)
          else
            match strip_prefix "true" (String c rest) with
            | Some tail => Some (VTrue, tail)
            | None =>
                match strip_prefix "false" (String c rest) with
                | Some tail => Some (VFalse, tail)
                | None =>
                    match strip_prefix "null" (String c rest) with
                    | Some tail => Some (VNull, tail)
                    | None => None
                    end
                end
            end
      end
  end
with parse_members (fuel : nat) (s : string) (acc : list (string * Value))
  : option (Value * string) :=
  match fuel with
  | O => None
  | S fuel =>
      match skip_space s with
      | String c rest =>
          if Ascii.eqb c dquote then
            match scan_string rest with
            | Some (key, tail) =>
                match skip_space tail with
                | String ":" tail =>
                    match parse_value fuel tail with
                    | Some (v, tail) =>
                        match skip_space tail with
                        | String "," tail => parse_members fuel tail (acc ++ [(key, v)])
                        | String "}" tail => Some (VObject (acc ++ [(key, v)]), tail)
                        | _ => None
                        end
                    | None => None
                    end
                | _ => None
                end
            | None => None
            end
          else None
      | EmptyString => None
      end
  end
with parse_elements (fuel : nat) (s : string) (acc : list Value)
  : option (Value * string) :=
  match fuel with
  | O => None
  | S fuel =>
      match parse_value fuel s with
      | Some (v, tail) =>
          match skip_space tail with
          | String "," tail => parse_elements fuel tail (acc ++ [v])
          | String "]" tail => Some (VArray (acc ++ [v]), tail)
          | _ => None
          end
      | None => None
      end
  end.

(** The parser: one JSON value, nothing but space after it. The tree of a
    text that parses is never nil, not even for the text [null]. *)
Definition Parse (s : string) : option Value * option error :=
  match parse_value (S (String.length s)) s with
  | Some (v, tail) =>
      match skip_space tail with
      | EmptyString => (Some v, None)
      | _ => (None, Some (ExternalError "cannot parse JSON: unexpected tail"))
      end
  | None => (None, Some (ExternalError "cannot parse JSON"))
  end.

Fixpoint digits_Z (s : string) (acc : Z) : option Z :=
  match s with
  | EmptyString => Some acc
  | String c rest =>
      if is_digit c
      then digits_Z rest (10 * acc + (Z.of_nat (Ascii.nat_of_ascii c) - 48))%Z
      else None
  end.

(** The integer a number text denotes, when it is a plain decimal integer
    that fits 64 bits. *)
Definition Int (raw : string) : Z * option error :=
  let parsed :=
    match raw with
    | EmptyString => None
    | String "-" EmptyString => None
    | String "-" rest => Z.opp <$> digits_Z rest 0
    | _ => digits_Z raw 0
    end in
  match parsed with
  | Some n =>
      if bool_decide (- 2 ^ 63 ≤ n < 2 ^ 63)%Z then (n, None)
      else (0%Z, Some (ExternalError "number doesn't fit int"))
  | None => (0%Z, Some (ExternalError "cannot parse int"))
  end.

Definition join (sep : string) (l : list string) : string :=
  match l with
  | [] => EmptyString
  | x :: rest => fold_left (fun acc y => acc +:+ sep +:+ y) rest x
  end.

(** The writer: keys in byte order, no space; [None] on a value that has no
    JSON form. Strings are written as they are. *)
Fixpoint encode (fuel : nat) (a : Any) : option string :=
  match fuel with
  | O => None
  | S fuel =>
      match a with
      | ANil => Some "null"
      | ABool b => Some (if b then "true" else "false")
      | AInt n => Some (pretty n)
      | AString t => Some (quoted t)
      | AList l =>
          items ← mapM (encode fuel) l;
          Some ("[" +:+ join "," items +:+ "]")
      | AMap m =>
          items ← mapM (fun k =>
                          v ← m !! k;
                          e ← encode fuel v;
                          Some (quoted k +:+ ":" +:+ e))
                       (merge_sort String.le (fst <$> map_to_list m));
          Some ("{" +:+ join "," items +:+ "}")
      | AFunc => None
      end
  end.

Definition Marshal (params : gmap string Any) : string * option error :=
  match encode 64 (AMap params) with
  | Some text => (text, None)
  | None => (EmptyString, Some (ExternalError "json: unsupported type"))
  end.

Definition alphabet : string :=
  "ABCDEFGHIJKLMNOPQRSTUVWXYZabcdefghijklmnopqrstuvwxyz0123456789+/".

Definition sextet (n : N) : string :=
  match String.get (N.to_nat (n mod 64)) alphabet with
  | Some c => String c EmptyString
  | None => EmptyString
  end.

Fixpoint base64 (s : string) : string :=
  match s with
  | EmptyString => EmptyString
  | String a EmptyString =>
      let n := (Ascii.N_of_ascii a * 65536)%N in
      sextet (n / 262144) +:+ sextet (n / 4096) +:+ "=="
  | String a (String b EmptyString) =>
      let n := (Ascii.N_of_ascii a * 65536 + Ascii.N_of_ascii b * 256)%N in
      sextet (n / 262144) +:+ sextet (n / 4096) +:+ sextet (n / 64) +:+ "="
  | String a (String b (String c rest)) =>
      let n := (Ascii.N_of_ascii a * 65536 + Ascii.N_of_ascii b * 256
                + Ascii.N_of_ascii c)%N in
      sextet (n / 262144) +:+ sextet (n / 4096) +:+ sextet (n / 64) +:+ sextet n
      +:+ base64 rest
  end.

End MiniJSON.

(** What an outcome returned, and the world it ended in. *)
Definition outcome_value {A : Type} (o : Outcome A) : option A :=
  match o with
  | Ret a _ => Some a
  | Panic _ => None
  end.

Definition outcome_world {A : Type} (o : Outcome A) : World :=
  match o with
  | Ret _ w => w
  | Panic w => w
  end.

Definition fresh_body (data : string) : BodyState :=
  {| b_data := data; b_err := None; b_consumed := false; b_closed := false |}.

(** A transport that answers every request with the given headers and body. *)
Definition answering (header : Header) (data : string) : HttpClient :=
  {| roundTrip := fun _ =>
       DoResponse {| rs_header := header; rs_body := Some (fresh_body data) |} |}.

(** The same, the body breaking off with an error after its data. *)
Definition answering_broken (header : Header) (data : string) : HttpClient :=
  {| roundTrip := fun _ =>
       DoResponse {| rs_header := header;
                     rs_body := Some {| b_data := data;
                                        b_err := Some (ExternalError "unexpected EOF");
                                        b_consumed := false; b_closed := false |} |} |}.

Definition json_success : string :=
  "{" +:+ MiniJSON.quoted "success" +:+ ":true}".

Definition json_success_foo : string :=
  "{" +:+ MiniJSON.quoted "success" +:+ ": true, "
      +:+ MiniJSON.quoted "foo" +:+ ": 1}".

Definition json_failure : string :=
  "{" +:+ MiniJSON.quoted "success" +:+ ": false, "
      +:+ MiniJSON.quoted "code" +:+ ": 42, "
      +:+ MiniJSON.quoted "message" +:+ ": " +:+ MiniJSON.quoted "bad input" +:+ "}".

Definition json_no_success : string :=
  "{" +:+ MiniJSON.quoted "foo" +:+ ": 1}".

Definition libs : Externals :=
  {| json_Marshal := MiniJSON.Marshal;
     fastjson_Parse := MiniJSON.Parse;
     number_Int := MiniJSON.Int;
     base64_Encode := MiniJSON.base64;
     http_DefaultClient := Some (answering ∅ json_success) |}.

(** A world with an input image, a directory, one unbounded writer and one
    writer that takes four bytes; the umask is 022 and nothing is
    write-protected. *)
Definition world0 : World :=
  {| fs := {["in.jpg" := RegFile 420 "JPEGDATA"; "old.png" := RegFile 384 "OLD";
             "dir" := Dir]};
     umask := 18;
     write_protected := ∅;
     fds := [];
     bodies := [];
     sinks := [{| s_written := EmptyString; s_limit := None; s_closed := false |};
               {| s_written := EmptyString; s_limit := Some 4%nat; s_closed := false |}];
     sent := [];
     next_boundary := "b0undary" |}.

Definition client0 : Client :=
  {| Key := "your-api-key"; Client_http := http_DefaultClient libs |}.

Definition image_url : string := "https://www.website.com/image.jpg".

(** The steps [execute] writes into the parameter map, with their bags. *)
Definition serialized_steps (r : Request) : list (string * P) :=
  [("resize", resize r); ("scale", scale r); ("crop", crop r);
   ("watermark", watermark r); ("mask", mask r); ("stylize", stylize r);
   ("adjust", adjust r); ("auto", auto r); ("border", border r);
   ("padding", padding r); ("store", store r); ("output", output r);
   ("webhook", webhook r); ("response", response r); ("cdn", cdn r)].

(** All the steps of a builder, with their bags. *)
Definition all_steps (r : Request) : list (string * P) :=
  ("optimize", optimize r) :: ("flip", flip r) :: serialized_steps r.

(** [Fetch(url).Optimize(P{"compression": "medium"})], as in the README. *)
Definition optimized_fetch : Request :=
  Optimize (Fetch client0 image_url) (Some {["compression" := AString "medium"]}).

(** [Fetch(url).Flip(P{"horizontal": true})]. *)
Definition flipped_fetch : Request :=
  Flip (Fetch client0 image_url) (Some {["horizontal" := ABool true]}).

(** A builder with a webhook. *)
Definition with_webhook : Request :=
  Webhook (Fetch client0 image_url) (Some {["url" := AString "https://hook.example"]}).

(** A builder with external storage and no webhook. *)
Definition with_store : Request :=
  Store (Fetch client0 image_url) (Some {["provider" := AString "s3"]}).

(** A builder with both a webhook and external storage. *)
Definition with_webhook_and_store : Request :=
  Store with_webhook (Some {["provider" := AString "s3"]}).

(** ** Concrete builders and answers *)

(** The response header that carries the metadata envelope. *)
Definition meta_of (text : string) : Header := {["X-Optidash-Meta" := [text]]}.

(** The builder [r] run through the transport [cl]. *)
Definition via (cl : HttpClient) (r : Request) : Request := HTTPClient r (Some cl).

(** The API answers with a failure envelope (in the body and in the header). *)
Definition failing_fetch : Request :=
  via (answering (meta_of json_failure) json_failure) (Fetch client0 image_url).

(** The API answers with an envelope that has no [success] field. *)
Definition no_success_fetch : Request :=
  via (answering (meta_of json_no_success) json_no_success) (Fetch client0 image_url).

(** The API answers with a JSON body and no metadata header. *)
Definition foo_fetch : Request :=
  via (answering ∅ json_success_foo) (Fetch client0 image_url).

(** The API answers with an image and a success envelope in the header. *)
Definition image_fetch : Request :=
  via (answering (meta_of json_success) "PNGDATA") (Fetch client0 image_url).

(** The same, the image breaking off after three bytes. *)
Definition broken_fetch : Request :=
  via (answering_broken (meta_of json_success) "PNG") (Fetch client0 image_url).

(** [Upload("in.jpg")], [Upload("missing.jpg")] and [Upload(reader)]. *)
Definition path_upload : Request := new_Request client0 pathSource None "in.jpg".

Definition missing_upload : Request :=
  new_Request client0 pathSource None "missing.jpg".

Definition stream_upload : Request :=
  new_Request client0 readerSource
    (Some {| in_data := "RAWBYTES"; in_err := None |}) EmptyString.

Definition failure_tree : Value :=
  VObject [("success", VFalse); ("code", VNumber "42");
           ("message", VString "bad input")].

Definition no_success_tree : Value := VObject [("foo", VNumber "1")].

Definition foo_tree : Value := VObject [("success", VTrue); ("foo", VNumber "1")].

(** The response object of the first exchange in [world0]. *)
Definition first_response (header : Header) : Response :=
  {| resp_header := header; resp_body := Some 0%nat |}.

(** The API answers with the JSON text [null]. *)
Definition null_fetch : Request :=
  via (answering ∅ "null") (Fetch client0 image_url).

(** ** Vocabulary of the statements *)

(** In JSON mode the exchange of [r] succeeded, the body of the response was
    read whole, leaving the world [w2], and parsed to [tree]. *)
Definition json_response (ext : Externals) (r : Request) (w : World)
    (tree : option Value) (w2 : World) : Prop :=
  exists (rp : Response) (w1 : World) (body : string),
    execute ext r w = Ret (Some rp, None) w1 /\
    io_ReadAll (BodyReader <$> resp_body rp) w1 = Ret (body, None) w2 /\
    fastjson_Parse ext body = (tree, None).

(** In binary mode the exchange of [r] succeeded with the response [rp],
    leaving the world [w1]. *)
Definition binary_response (ext : Externals) (r : Request) (w : World)
    (rp : Response) (w1 : World) : Prop :=
  webhook r = None /\ store r = None /\
  execute ext (binary_request r) w = Ret (Some rp, None) w1.

(** The response [rp] carries a metadata header, which parsed to [tree]. *)
Definition meta_header (ext : Externals) (rp : Response) (tree : option Value) : Prop :=
  Header_Get (resp_header rp) "X-Optidash-Meta" <> EmptyString /\
  fastjson_Parse ext (Header_Get (resp_header rp) "X-Optidash-Meta") = (tree, None).

(** The state of a body after [Close]. *)
Definition closed_body (st : BodyState) : BodyState :=
  {| b_data := b_data st; b_err := b_err st; b_consumed := b_consumed st;
     b_closed := true |}.

(** The world [w1] once the body of [rp] has been closed: the state of that
    body has [b_closed] set, and nothing else differs. *)
Definition body_closed_in (rp : Response) (w1 : World) : World :=
  match resp_body rp with
  | Some h =>
      match bodies w1 !! h with
      | Some st => set_bodies (<[h := closed_body st]> (bodies w1)) w1
      | None => w1
      end
  | None => w1
  end.

(** The body of [rp], if it has one, is a body of [w] and is closed. *)
Definition body_closed (rp : Response) (w : World) : Prop :=
  forall h : nat,
    resp_body rp = Some h ->
    exists st : BodyState, bodies w !! h = Some st /\ b_closed st = true.

(** The content of the regular file [path]. *)
Definition file_content (w : World) (path : string) : option string :=
  match fs w !! path with
  | Some (RegFile _ content) => Some content
  | _ => None
  end.

(** The two parts of an upload. *)
Definition file_part (data : string) : Part :=
  {| part_name := "file"; part_filename := Some EmptyString;
     part_content_type := Some "application/octet-stream";
     part_content := data |}.

Definition data_part (pb : string) : Part :=
  {| part_name := "data"; part_filename := None;
     part_content_type := None; part_content := pb |}.

(** [execute] hands exactly one request to the transport: a POST to [url]
    with the given content type and body. *)
Definition sends_one (ext : Externals) (r : Request) (w : World)
    (url contentType : string) (body : Payload) : Prop :=
  exists (q : HttpRequest) (resp : option Response) (err : option error) (w' : World),
    execute ext r w = Ret (resp, err) w' /\
    sent w' = sent w ++ [q] /\
    req_method q = "POST" /\
    req_url q = url /\
    Header_Get (req_header q) "Content-Type" = contentType /\
    req_body q = body.

(** The fields of the error built from a failure envelope: the value when the
    field has the right type, else the zero value of the Go field. *)
Definition code_or_zero (ext : Externals) (cv : Value) : Z :=
  if snd (Value_Int ext cv) is None then fst (Value_Int ext cv) else 0%Z.

Definition message_or_empty (mv : Value) : string :=
  if snd (Value_StringBytes mv) is None then fst (Value_StringBytes mv)
  else EmptyString.

(** The state of a body that was read to its end and not closed. *)
Definition read_body (st : BodyState) : BodyState :=
  {| b_data := b_data st; b_err := b_err st; b_consumed := true; b_closed := false |}.

(** A body as the transport delivers it when all goes well. *)
Definition fresh (st : BodyState) : Prop :=
  b_closed st = false /\ b_consumed st = false /\ b_err st = None.

(** The body [h] exists in [w] and is not closed. *)
Definition open_in (w : World) (h : nat) : Prop :=
  exists st, bodies w !! h = Some st /\ b_closed st = false.

(** ** Further vocabulary *)

(** The fourteen step setters whose field [execute] serializes, by key. *)
Definition serialized_setters : list (string * (Request -> P -> Request)) :=
  [("resize", Resize); ("scale", Scale); ("crop", Crop);
   ("watermark", Watermark); ("mask", Mask); ("stylize", Stylize);
   ("adjust", Adjust); ("auto", Auto); ("border", Border);
   ("padding", Padding); ("store", Store); ("output", Output);
   ("webhook", Webhook); ("cdn", CDN)].

(** All the exported step setters. There is none for [response]. *)
Definition step_setters : list (string * (Request -> P -> Request)) :=
  ("optimize", Optimize) :: ("flip", Flip) :: serialized_setters.

(** The builders the exported API can produce: [Fetch] and [Upload] on a
    client, then any chain of setters. *)
Inductive exported : Request -> Prop :=
| exported_Fetch (c : Client) (url : string) : exported (Fetch c url)
| exported_Upload (c : Client) (input : UploadInput) (r : Request) :
    Upload c input = Some r -> exported r
| exported_step (name : string) (f : Request -> P -> Request) (r : Request) (data : P) :
    (name, f) ∈ step_setters -> exported r -> exported (f r data)
| exported_HTTPClient (r : Request) (cl : option HttpClient) :
    exported r -> exported (HTTPClient r cl)
| exported_Context (r : Request) (ctx : option context_Context) :
    exported r -> exported (Context_ r ctx).

(** The parameter map as a fold: each step of the list is put in turn. *)
Definition put_all (steps : list (string * P)) (init : gmap string Any)
  : gmap string Any :=
  fold_left (fun params nb => put_step nb.1 nb.2 params) steps init.

(** The list of steps with the bag of [name] replaced. *)
Definition set_bag (name : string) (bag : P) (steps : list (string * P))
  : list (string * P) :=
  (fun nb => if decide (nb.1 = name) then (nb.1, bag) else nb) <$> steps.

(** The [response] bag asks for binary mode: its [mode] is the string
    [binary]. *)
Definition wants_binary (r : Request) : bool :=
  match response r with
  | Some m =>
      match m !! "mode" with
      | Some (AString s) => bool_decide (s = "binary")
      | _ => false
      end
  | None => false
  end.

(** The headers of a request of the builder [r] with content type [ct],
    authenticated with the key of [c]. *)
Definition request_headers (ext : Externals) (r : Request) (c : Client)
    (ct : string) : Header :=
  let h : Header := {["Content-Type" := [ct]]} in
  let h := if wants_binary r then <["X-Optidash-Binary" := ["1"]]> h else h in
  <["Authorization" := ["Basic " +:+ base64_Encode ext (Key c +:+ ":")]]> h.

(** Every file opened since [w] is closed in [w'], and the files open in
    [w] are as they were. *)
Definition no_file_left_open (w w' : World) : Prop :=
  exists new : list FdState,
    fds w' = fds w ++ new /\ Forall (fun st => fd_closed st = true) new.

(** The file system of [w'] is that of [w], and no file is left open. *)
Definition files_settled (w w' : World) : Prop :=
  fs w' = fs w /\ no_file_left_open w w'.

(** ** Further concrete builders *)

(** [world0] with the file [old.png] write-protected. *)
Definition protected_world : World :=
  {| fs := fs world0; umask := umask world0; write_protected := {["old.png"]};
     fds := fds world0; bodies := bodies world0; sinks := sinks world0;
     sent := sent world0; next_boundary := next_boundary world0 |}.

(** A transport that fails before any response. *)
Definition refusing : HttpClient :=
  {| roundTrip := fun _ => DoError (ExternalError "connection refused") None |}.

(** A transport that fails on a redirect: the error comes with a response
    whose body is closed already. *)
Definition redirecting : HttpClient :=
  {| roundTrip := fun _ =>
       DoError (ExternalError "stopped after 10 redirects")
         (Some {| rs_header := ∅;
                  rs_body := Some {| b_data := EmptyString; b_err := None;
                                     b_consumed := false; b_closed := true |} |}) |}.

Definition refused_fetch : Request := via refusing (Fetch client0 image_url).

Definition redirected_fetch : Request := via redirecting (Fetch client0 image_url).

(** The API answers with text that is not JSON, in the body and the header. *)
Definition garbled_fetch : Request :=
  via (answering (meta_of "not json") "not json") (Fetch client0 image_url).

(** The JSON body breaks off with an error. *)
Definition broken_json_fetch : Request :=
  via (answering_broken ∅ json_success) (Fetch client0 image_url).

(** A bag holding a value that has no JSON form. *)
Definition unencodable_fetch : Request :=
  Resize (Fetch client0 image_url) (Some {["width" := AFunc]}).

(** A builder with a source kind outside the three constants; the exported
    API builds none. *)
Definition odd_source : Request := new_Request client0 7 None EmptyString.

(** An upload from a reader that fails. *)
Definition failing_stream_upload : Request :=
  new_Request client0 readerSource
    (Some {| in_data := "RAW"; in_err := Some (ExternalError "read failed") |})
    EmptyString.

(** [Upload("in.jpg").Resize(P{"width": 100}).Context(ctx)]. *)
Definition resized_upload : Request :=
  Context_ (Resize path_upload (Some {["width" := AInt 100]})) (Some "ctx-1").

(** A fetch builder with no transport. *)
Definition no_transport_fetch : Request := HTTPClient (Fetch client0 image_url) None.

(** The request [execute] sends for [resized_upload] in [world0]. *)
Definition resized_upload_request : HttpRequest :=
  {| req_method := "POST";
     req_url := apiURL +:+ "/upload";
     req_header :=
       request_headers libs resized_upload client0
         "multipart/form-data; boundary=b0undary";
     req_body :=
       FormBody "b0undary"
         [file_part "JPEGDATA";
          data_part ("{" +:+ MiniJSON.quoted "resize" +:+ ":{"
                         +:+ MiniJSON.quoted "width" +:+ ":100}}")];
     req_context := Some "ctx-1" |}.

(** The request [ToReader] sends for [image_fetch] in [world0]. *)
Definition image_fetch_request : HttpRequest :=
  {| req_method := "POST";
     req_url := apiURL +:+ "/fetch";
     req_header :=
       request_headers libs (binary_request image_fetch) client0 "application/json";
     req_body :=
       BytesBody ("{" +:+ MiniJSON.quoted "response" +:+ ":{"
                      +:+ MiniJSON.quoted "mode" +:+ ":"
                      +:+ MiniJSON.quoted "binary" +:+ "},"
                      +:+ MiniJSON.quoted "url" +:+ ":"
                      +:+ MiniJSON.quoted image_url +:+ "}");
     req_context := None |}.

(** * Properties *)

(** ** The monad *)

Lemma bind_Ret {A B : Type} (m : M A) (k : A -> M B) (w w' : World) (a : A) :
  m w = Ret a w' -> bind m k w = k a w'.
Proof. intros H. unfold bind. by rewrite H. Qed.

Lemma bind_Panic {A B : Type} (m : M A) (k : A -> M B) (w w' : World) :
  m w = Panic w' -> bind m k w = Panic w'.
Proof. intros H. unfold bind. by rewrite H. Qed.

Ltac go_step H := rewrite (bind_Ret _ _ _ _ _ H); cbv beta iota.

Lemma close_unless_Ret (b : bool) (resp : option Response) (w : World) :
  close_unless b resp w = Ret tt (outcome_world (close_unless b resp w)).
Proof.
  unfold close_unless, Body_Close, ret.
  destruct b; cbn [negb]; [reflexivity|].
  destruct resp as [rp|]; [|reflexivity].
  destruct (resp_body rp) as [h|]; [|reflexivity].
  destruct (bodies w !! h); reflexivity.
Qed.

Lemma close_unless_closes (rp : Response) (w : World) :
  close_unless false (Some rp) w = Ret tt (body_closed_in rp w).
Proof.
  unfold close_unless, body_closed_in, Body_Close, ret. cbn [negb].
  destruct (resp_body rp) as [h|]; [|reflexivity].
  destruct (bodies w !! h); reflexivity.
Qed.

Lemma defer_reading_ret {A : Type} (cleanup : bool -> M unit) (flag : bool) (a : A)
    (w w' : World) :
  cleanup flag w = Ret tt w' ->
  defer_reading cleanup (ret (flag, a)) w = Ret a w'.
Proof. intros H. unfold defer_reading, ret. by rewrite H. Qed.

Ltac to_reader_start Hb :=
  let Hw := fresh "Hwebhook" in
  let Hs := fresh "Hstore" in
  let Hexec := fresh "Hexec" in
  destruct Hb as (Hw & Hs & Hexec);
  unfold ToReader; rewrite Hw, Hs; cbv zeta;
  go_step Hexec.

Ltac split_cases :=
  repeat match goal with
         | |- context [match ?x with _ => _ end] => destruct x
         | |- context [if ?x then _ else _] => destruct x
         end.

(** ** The parameter map *)

Lemma lookup_put_step (name : string) (bag : P) (params : gmap string Any) (k : string) :
  put_step name bag params !! k =
    if decide (name = k)
    then match bag with
         | Some m => Some (AMap m)
         | None => params !! k
         end
    else params !! k.
Proof.
  unfold put_step. destruct bag as [m|]; case_decide; subst; try done.
  - by rewrite lookup_insert_eq.
  - by rewrite lookup_insert_ne.
Qed.

Ltac params_lookup :=
  unfold build_params;
  try (case_bool_decide; [rewrite lookup_insert_ne by done|]);
  repeat (rewrite lookup_put_step; case_decide; try done);
  try rewrite lookup_empty; try done.

(** Each of the fifteen steps [execute] handles is in the map exactly when
    its bag is set, with the bag as its value. *)
Lemma build_params_serialized (r : Request) (name : string) (bag : P) :
  (name, bag) ∈ serialized_steps r ->
  build_params r !! name = AMap <$> bag.
Proof.
  unfold serialized_steps. intros Hin.
  repeat (apply elem_of_cons in Hin as [[= -> ->]|Hin]);
    [..|by apply elem_of_nil in Hin];
    params_lookup.
Qed.

(** The bags of [optimize] and [flip] never reach the map. *)
Lemma build_params_optimize_flip (r : Request) :
  build_params r !! "optimize" = None /\ build_params r !! "flip" = None.
Proof. split; params_lookup. Qed.

(** The map has the key [url] exactly for a fetch source. *)
Lemma build_params_url (r : Request) :
  build_params r !! "url" =
    if bool_decide (source r = fetchSource) then Some (AString (location r)) else None.
Proof.
  unfold build_params. case_bool_decide.
  - by rewrite lookup_insert_eq.
  - repeat (rewrite lookup_put_step; case_decide; try done).
Qed.

(** C1 (the code departs from the claim): the claim asks that every set step
    of the closed set, [optimize] and [flip] included, is in the serialized
    payload. On the builder [Fetch(url).Optimize(P{"compression": "medium"})]
    the bag of [optimize] is set, the parameter map has no [optimize] key,
    and the request body that reaches the transport is the JSON object with
    the [url] key alone; the same on [Fetch(url).Flip(P{"horizontal": true})]
    for [flip]. *)
Theorem execute_omits_optimize :
  (("optimize", Some {["compression" := AString "medium"]})
     ∈ all_steps optimized_fetch /\
   build_params optimized_fetch !! "optimize" = None /\
   req_body <$> sent (outcome_world (execute libs optimized_fetch world0)) =
     [BytesBody ("{" +:+ MiniJSON.quoted "url" +:+ ":"
                     +:+ MiniJSON.quoted image_url +:+ "}")]) /\
  (("flip", Some {["horizontal" := ABool true]}) ∈ all_steps flipped_fetch /\
   build_params flipped_fetch !! "flip" = None /\
   req_body <$> sent (outcome_world (execute libs flipped_fetch world0)) =
     [BytesBody ("{" +:+ MiniJSON.quoted "url" +:+ ":"
                     +:+ MiniJSON.quoted image_url +:+ "}")]).
Proof.
  split.
  - split; [apply elem_of_cons; by left|].
    split; [apply build_params_optimize_flip|].
    vm_compute. reflexivity.
  - split; [apply elem_of_cons; right; apply elem_of_cons; by left|].
    split; [apply build_params_optimize_flip|].
    vm_compute. reflexivity.
Qed.

(** ** Binary mode with a webhook or external storage *)

(** C2 (counterexample): a builder with both a webhook and external
    storage. Its store step is set, and [ToReader], [ToFile] and [CopyTo]
    return [ErrBinaryWebhook], not [ErrBinaryStorage]: it is not true that
    every builder with the store step set gets [ErrBinaryStorage]. *)
Lemma store_set_may_yield_webhook_error :
  store with_webhook_and_store <> None /\
  outcome_value (ToReader libs with_webhook_and_store world0)
    = Some (None, None, Some ErrBinaryWebhook) /\
  outcome_value (ToFile libs with_webhook_and_store "out.png" 420 world0)
    = Some (None, Some ErrBinaryWebhook) /\
  outcome_value (CopyTo libs with_webhook_and_store (Some (SinkWriter 0)) world0)
    = Some (None, Some ErrBinaryWebhook) /\
  ~ (forall (r : Request) (w : World),
       store r <> None ->
       outcome_value (ToReader libs r w) = Some (None, None, Some ErrBinaryStorage)).
Proof.
  assert (Hs : store with_webhook_and_store <> None) by (vm_compute; discriminate).
  split; [exact Hs|].
  do 3 (split; [by vm_compute|]).
  intros H. specialize (H with_webhook_and_store world0 Hs).
  vm_compute in H. discriminate H.
Qed.

(** C2 (amended): on a builder with the webhook step set, [ToReader],
    [ToFile] and [CopyTo] return [ErrBinaryWebhook]; on a builder with the
    store step set and the webhook step not set they return
    [ErrBinaryStorage]. In both cases the world is the one the operation
    started in: nothing was handed to the transport, no file was touched. *)
Theorem binary_mode_rejects_webhook_and_store
    (ext : Externals) (r : Request) (w : World)
    (path : string) (perm : Z) (dst : option io_Writer) :
  (webhook r <> None ->
     ToReader ext r w = Ret (None, None, Some ErrBinaryWebhook) w /\
     ToFile ext r path perm w = Ret (None, Some ErrBinaryWebhook) w /\
     CopyTo ext r dst w = Ret (None, Some ErrBinaryWebhook) w) /\
  (webhook r = None -> store r <> None ->
     ToReader ext r w = Ret (None, None, Some ErrBinaryStorage) w /\
     ToFile ext r path perm w = Ret (None, Some ErrBinaryStorage) w /\
     CopyTo ext r dst w = Ret (None, Some ErrBinaryStorage) w).
Proof.
  split.
  - intros Hw.
    assert (HR : ToReader ext r w = Ret (None, None, Some ErrBinaryWebhook) w).
    { unfold ToReader. destruct (webhook r); [reflexivity|congruence]. }
    split; [exact HR|].
    split; [unfold ToFile|unfold CopyTo]; by rewrite (bind_Ret _ _ _ _ _ HR).
  - intros Hw Hs.
    assert (HR : ToReader ext r w = Ret (None, None, Some ErrBinaryStorage) w).
    { unfold ToReader. rewrite Hw. destruct (store r); [reflexivity|congruence]. }
    split; [exact HR|].
    split; [unfold ToFile|unfold CopyTo]; by rewrite (bind_Ret _ _ _ _ _ HR).
Qed.

Lemma binary_mode_rejects_webhook_and_store_witness :
  (webhook with_webhook_and_store <> None /\
   ToReader libs with_webhook_and_store world0
     = Ret (None, None, Some ErrBinaryWebhook) world0 /\
   ToFile libs with_webhook_and_store "out.png" 420 world0
     = Ret (None, Some ErrBinaryWebhook) world0 /\
   CopyTo libs with_webhook_and_store (Some (SinkWriter 0)) world0
     = Ret (None, Some ErrBinaryWebhook) world0) /\
  (webhook with_store = None /\ store with_store <> None /\
   ToReader libs with_store world0
     = Ret (None, None, Some ErrBinaryStorage) world0 /\
   ToFile libs with_store "out.png" 420 world0
     = Ret (None, Some ErrBinaryStorage) world0 /\
   CopyTo libs with_store (Some (SinkWriter 0)) world0
     = Ret (None, Some ErrBinaryStorage) world0).
Proof.
  split.
  - assert (Hw : webhook with_webhook_and_store <> None)
      by (vm_compute; discriminate).
    split; [exact Hw|].
    exact (proj1 (binary_mode_rejects_webhook_and_store libs
                    with_webhook_and_store world0 "out.png" 420
                    (Some (SinkWriter 0))) Hw).
  - assert (Hw : webhook with_store = None) by reflexivity.
    assert (Hs : store with_store <> None) by (vm_compute; discriminate).
    split; [exact Hw|]. split; [exact Hs|].
    exact (proj2 (binary_mode_rejects_webhook_and_store libs
                    with_store world0 "out.png" 420
                    (Some (SinkWriter 0))) Hw Hs).
Defined.

(** ** What [execute] sends *)

(** With a client and a transport, the end of [execute] hands one request to
    the transport: a POST to the URL, with the content type and the body it
    was given. Files and writers are left as they were. *)
Lemma execute_send_sends ext r url ct body w c cl :
  client r = Some c -> http r = Some cl ->
  exists q resp err w',
    execute_send ext r url ct body w = Ret (resp, err) w' /\
    sent w' = sent w ++ [q] /\
    req_method q = "POST" /\
    req_url q = url /\
    Header_Get (req_header q) "Content-Type" = ct /\
    req_body q = body /\
    fs w' = fs w /\ fds w' = fds w /\ sinks w' = sinks w.
Proof.
  intros Hc Hh. unfold execute_send, http_NewRequest. cbv beta iota zeta.
  rewrite Hc, Hh. unfold http_Do.
  match goal with |- context [roundTrip cl ?q0] => set (q := q0) end.
  assert (Hq : req_method q = "POST" /\ req_url q = url /\
               Header_Get (req_header q) "Content-Type" = ct /\ req_body q = body).
  { subst q. unfold SetBasicAuth.
    destruct (context r); destruct (response r) as [m|];
      try (destruct (m !! "mode") as [mode|];
           [destruct (any_eq_string mode "binary")|]);
      cbn [req_method req_url req_body req_header Request_Header_Set WithContext];
      repeat split; unfold Header_Get, Header_Set;
      rewrite ?lookup_insert_ne by done; by rewrite lookup_insert_eq. }
  destruct Hq as (Hq1 & Hq2 & Hq3 & Hq4).
  exists q.
  destruct (roundTrip cl q) as [rs|e [rs|]]; unfold new_response;
    try destruct (rs_body rs); do 3 eexists; (split; [reflexivity|]); done.
Qed.

(** Once the input has been read, the upload branch sends the form with the
    file part and the data part. *)
Lemma execute_upload_send ext r pb file data w :
  io_ReadAll file w = Ret (data, None) w ->
  execute_upload ext r pb file w =
    execute_send ext r (apiURL +:+ "/upload")
      ("multipart/form-data; boundary=" +:+ next_boundary w)
      (FormBody (next_boundary w) [file_part data; data_part pb]) w.
Proof.
  intros Hread. unfold execute_upload.
  unfold bind at 1. unfold multipart_NewWriter. cbv beta iota zeta.
  cbn [CreateFormFile]. go_step Hread. reflexivity.
Qed.

Lemma new_fd_lookup name w :
  fds (snd (new_fd name w)) !! fst (new_fd name w)
    = Some {| fd_path := name; fd_closed := false |}.
Proof. unfold new_fd. cbn. by rewrite list_lookup_middle. Qed.

(** [execute] never hands more than one request to the transport. *)
Lemma execute_send_at_most_one ext r url ct body w :
  sent (outcome_world (execute_send ext r url ct body w)) = sent w \/
  exists q, sent (outcome_world (execute_send ext r url ct body w)) = sent w ++ [q].
Proof.
  unfold execute_send, http_NewRequest. cbv beta iota zeta.
  destruct (client r) as [c|]; [|by left].
  unfold http_Do. destruct (http r) as [cl|]; [|by left].
  match goal with |- context [roundTrip cl ?q0] => set (q := q0) end.
  right. exists q.
  destruct (roundTrip cl q) as [rs|e [rs|]]; unfold new_response;
    try destruct (rs_body rs); reflexivity.
Qed.

Lemma execute_upload_at_most_one ext r pb file w :
  sent (outcome_world (execute_upload ext r pb file w)) = sent w \/
  exists q, sent (outcome_world (execute_upload ext r pb file w)) = sent w ++ [q].
Proof.
  unfold execute_upload. unfold bind at 1. unfold multipart_NewWriter.
  cbv beta iota zeta. cbn [CreateFormFile].
  assert (Hr : forall x w', io_ReadAll file w = x -> outcome_world x = w' -> sent w' = sent w).
  { intros x w' <- <-. unfold io_ReadAll. split_cases; reflexivity. }
  unfold bind.
  destruct (io_ReadAll file w) as [[data [e|]] w1|w1] eqn:Hread;
    pose proof (Hr _ w1 eq_refl eq_refl) as Hs; cbn [outcome_world ret].
  - by left.
  - cbn [WriteField FormWriter_Close]. cbv beta iota.
    rewrite <- Hs. apply execute_send_at_most_one.
  - by left.
Qed.

Lemma execute_at_most_one ext r w :
  sent (outcome_world (execute ext r w)) = sent w \/
  exists q, sent (outcome_world (execute ext r w)) = sent w ++ [q].
Proof.
  unfold execute. destruct (json_Marshal ext (build_params r)) as [pb [e|]];
    [by left|].
  destruct (bool_decide (source r = fetchSource));
    [apply execute_send_at_most_one|].
  destruct (bool_decide (source r = readerSource) || bool_decide (source r = pathSource));
    [|by left].
  destruct (bool_decide (source r = readerSource));
    [apply execute_upload_at_most_one|].
  destruct (bool_decide (source r = pathSource));
    [|apply execute_upload_at_most_one].
  unfold bind.
  assert (Ho : sent (outcome_world (os_OpenFile (location r) O_RDONLY 384 w)) = sent w).
  { unfold os_OpenFile, new_fd. split_cases; reflexivity. }
  destruct (os_OpenFile (location r) O_RDONLY 384 w) as [[file [e|]] w1|w1];
    cbn [outcome_world] in Ho; [by left| |by left].
  unfold defer. rewrite <- Ho.
  pose proof (execute_upload_at_most_one ext r pb (Some (FileReader file)) w1) as Hu.
  assert (Hc : forall w2, sent (outcome_world (File_Close file w2)) = sent w2 /\
                          (File_Close file w2 = Ret tt (outcome_world (File_Close file w2)))).
  { intros w2. unfold File_Close. split_cases; done. }
  destruct (execute_upload ext r pb (Some (FileReader file)) w1) as [x w2|w2];
    cbn [outcome_world] in Hu; destruct (Hc w2) as [Hs Hr]; rewrite Hr;
    cbn [outcome_world]; by rewrite Hs.
Qed.

(** C9 (counterexample): the builder [Upload("missing.jpg")], on a path
    that does not exist. [execute] returns the error of [os.OpenFile] and
    nothing reaches the transport: it is not true that every builder sends
    exactly one request. *)
Lemma missing_file_sends_nothing :
  Upload client0 (InputPath "missing.jpg") = Some missing_upload /\
  outcome_value (execute libs missing_upload world0)
    = Some (None, Some (ExternalError "open: no such file or directory")) /\
  sent (outcome_world (execute libs missing_upload world0)) = [] /\
  ~ (forall (r : Request) (w : World),
       exists (url contentType : string) (body : Payload),
         sends_one libs r w url contentType body).
Proof.
  split; [reflexivity|].
  do 2 (split; [by vm_compute|]).
  intros H.
  destruct (H missing_upload world0)
    as (url & ct & body & q & resp & err & w' & Hexec & Hsent & _).
  assert (Hw : sent w' = []).
  { change (sent (outcome_world (Ret (resp, err) w')) = []).
    rewrite <- Hexec. by vm_compute. }
  rewrite Hw in Hsent. by destruct (sent world0).
Qed.

(** C9 (amended): for every builder that has a client and a transport and
    whose parameter map encodes to [pb], [execute] hands exactly one request
    to the transport, a POST, in each of these cases. Fetch source: the URL
    is the API base plus [/fetch], the content type [application/json], the
    body [pb]. Stream source whose reader yields its data without error, and
    path source whose path is a regular file: the URL is the API base plus
    [/upload], the body a multipart form with exactly the two parts [file]
    (the raw input bytes) and [data] ([pb]), the content type the multipart
    type with the boundary of the form. *)
Theorem execute_sends_one_POST (ext : Externals) (r : Request) (w : World)
    (c : Client) (cl : HttpClient) (pb : string) :
  client r = Some c -> http r = Some cl ->
  json_Marshal ext (build_params r) = (pb, None) ->
  (source r = fetchSource ->
     sends_one ext r w (apiURL +:+ "/fetch") "application/json" (BytesBody pb)) /\
  (source r = readerSource ->
     forall s : InStream, reader r = Some s -> in_err s = None ->
     sends_one ext r w (apiURL +:+ "/upload")
       ("multipart/form-data; boundary=" +:+ next_boundary w)
       (FormBody (next_boundary w) [file_part (in_data s); data_part pb])) /\
  (source r = pathSource ->
     forall (mode : Z) (content : string),
       fs w !! location r = Some (RegFile mode content) ->
     sends_one ext r w (apiURL +:+ "/upload")
       ("multipart/form-data; boundary=" +:+ next_boundary w)
       (FormBody (next_boundary w) [file_part content; data_part pb])).
Proof.
  intros Hc Hh Hm. split; [|split].
  - intros Hsrc. unfold sends_one, execute. rewrite Hm. cbv beta iota zeta.
    rewrite Hsrc. cbn [bool_decide decide_rel].
    rewrite bool_decide_eq_true_2 by done.
    destruct (execute_send_sends ext r (apiURL +:+ "/fetch") "application/json"
                (BytesBody pb) w c cl Hc Hh)
      as (q & resp & err & w' & He & Hsent & H1 & H2 & H3 & H4 & _).
    by exists q, resp, err, w'.
  - intros Hsrc s Hrd Herr. unfold sends_one, execute. rewrite Hm. cbv beta iota zeta.
    rewrite Hsrc, Hrd. 
    rewrite (bool_decide_eq_false_2 (readerSource = fetchSource)) by done.
    rewrite (bool_decide_eq_true_2 (readerSource = readerSource)) by done.
    cbn [orb fmap option_fmap option_map].
    rewrite (execute_upload_send ext r pb _ (in_data s) w)
      by (unfold io_ReadAll; by rewrite Herr).
    destruct (execute_send_sends ext r (apiURL +:+ "/upload")
                ("multipart/form-data; boundary=" +:+ next_boundary w)
                (FormBody (next_boundary w) [file_part (in_data s); data_part pb])
                w c cl Hc Hh)
      as (q & resp & err & w' & He & Hsent & H1 & H2 & H3 & H4 & _).
    by exists q, resp, err, w'.
  - intros Hsrc mode content Hfile. unfold sends_one, execute. rewrite Hm.
    cbv beta iota zeta. rewrite Hsrc.
    rewrite (bool_decide_eq_false_2 (pathSource = fetchSource)) by done.
    rewrite (bool_decide_eq_false_2 (pathSource = readerSource)) by done.
    rewrite (bool_decide_eq_true_2 (pathSource = pathSource)) by done.
    cbn [orb].
    unfold bind at 1. unfold os_OpenFile. rewrite Hfile.
    change (has_flag O_RDONLY O_TRUNC) with false.
    change (has_flag O_RDONLY O_WRONLY || has_flag O_RDONLY O_RDWR) with false.
    cbv beta iota zeta. cbn [andb].
    rewrite insert_id by exact Hfile.
    set (w1 := set_fs (fs w) w).
    pose proof (new_fd_lookup (location r) w1) as Hfd.
    destruct (new_fd (location r) w1) as [fd w2] eqn:Hnew.
    cbn [fst snd] in Hfd.
    assert (Hw2 : fs w2 = fs w /\ sent w2 = sent w /\ next_boundary w2 = next_boundary w).
    { unfold new_fd in Hnew. injection Hnew as <- <-. done. }
    destruct Hw2 as (Hfs2 & Hsent2 & Hnb2).
    unfold defer.
    rewrite (execute_upload_send ext r pb _ content w2).
    2:{ unfold io_ReadAll. cbn [mbind option_bind]. rewrite Hfd. cbn [fd_closed fd_path].
        by rewrite Hfs2, Hfile. }
    destruct (execute_send_sends ext r (apiURL +:+ "/upload")
                ("multipart/form-data; boundary=" +:+ next_boundary w2)
                (FormBody (next_boundary w2) [file_part content; data_part pb])
                w2 c cl Hc Hh)
      as (q & resp & err & w' & He & Hsent & H1 & H2 & H3 & H4 & _).
    rewrite He. rewrite Hnb2 in *.
    exists q, resp, err. unfold File_Close.
    destruct (fds w' !! fd) as [st|]; eexists; (split; [reflexivity|]);
      cbn [sent set_fds]; rewrite Hsent, Hsent2; done.
Qed.

(** The amended C9 on a fetch, a stream and a path builder. *)
Lemma execute_sends_one_POST_witness :
  sends_one libs optimized_fetch world0
    (apiURL +:+ "/fetch") "application/json"
    (BytesBody ("{" +:+ MiniJSON.quoted "url" +:+ ":"
                    +:+ MiniJSON.quoted image_url +:+ "}")) /\
  sends_one libs stream_upload world0
    (apiURL +:+ "/upload") "multipart/form-data; boundary=b0undary"
    (FormBody "b0undary" [file_part "RAWBYTES"; data_part "{}"]) /\
  sends_one libs path_upload world0
    (apiURL +:+ "/upload") "multipart/form-data; boundary=b0undary"
    (FormBody "b0undary" [file_part "JPEGDATA"; data_part "{}"]).
Proof.
  split; [|split].
  - refine (proj1 (execute_sends_one_POST libs optimized_fetch world0 client0
                     (answering ∅ json_success) _ _ _ _) _);
      [reflexivity | reflexivity | by vm_compute | reflexivity].
  - refine (proj1 (proj2 (execute_sends_one_POST libs stream_upload world0 client0
                            (answering ∅ json_success) _ _ _ _))
              _ {| in_data := "RAWBYTES"; in_err := None |} _ _);
      [reflexivity | reflexivity | by vm_compute | reflexivity
      | reflexivity | reflexivity].
  - refine (proj2 (proj2 (execute_sends_one_POST libs path_upload world0 client0
                            (answering ∅ json_success) _ _ _ _))
              _ 420%Z "JPEGDATA" _);
      [reflexivity | reflexivity | by vm_compute | reflexivity | by vm_compute].
Defined.

(** ** The response envelope *)

(** JSON mode, [success] false: what [ToJSON] returns, by the presence of
    [code] and [message]; a field of the wrong type leaves the zero value. *)
Lemma ToJSON_failure ext r w tree w2 :
  json_response ext r w (Some tree) w2 ->
  Value_Get (Some tree) "success" = Some VFalse ->
  ToJSON ext r w =
    match Value_Get (Some tree) "code", Value_Get (Some tree) "message" with
    | Some cv, Some mv =>
        Ret (None, Some (OptidashError (code_or_zero ext cv) (message_or_empty mv))) w2
    | _, _ => Ret (None, Some ErrNoSuccess) w2
    end.
Proof.
  intros (rp & w1 & body & Hexec & Hread & Hparse) Hs.
  unfold code_or_zero, message_or_empty.
  unfold ToJSON. go_step Hexec. go_step Hread. rewrite Hparse. cbv beta iota.
  rewrite Hs. cbn [Value_Bool negb].
  destruct (Value_Get (Some tree) "code") as [cv|]; [|reflexivity].
  destruct (Value_Int ext cv) as [code e2].
  destruct (Value_Get (Some tree) "message") as [mv|]; [|reflexivity].
  destruct (Value_StringBytes mv) as [msg e3]. reflexivity.
Qed.

(** Binary mode, [success] false: the same, and the body is closed. *)
Lemma ToReader_failure ext r w rp w1 tree :
  binary_response ext r w rp w1 ->
  meta_header ext rp (Some tree) ->
  Value_Get (Some tree) "success" = Some VFalse ->
  ToReader ext r w =
    match Value_Get (Some tree) "code", Value_Get (Some tree) "message" with
    | Some cv, Some mv =>
        Ret (None, None,
             Some (OptidashError (code_or_zero ext cv) (message_or_empty mv)))
            (body_closed_in rp w1)
    | _, _ => Ret (None, None, Some ErrNoSuccess) (body_closed_in rp w1)
    end.
Proof.
  intros Hb (Hne & Hparse) Hsucc. unfold code_or_zero, message_or_empty.
  to_reader_start Hb.
  rewrite bool_decide_eq_true_2 by exact Hne. rewrite Hparse. cbv beta iota.
  rewrite Hsucc. cbn [Value_Bool negb].
  destruct (Value_Get (Some tree) "code") as [cv|];
    [|by apply defer_reading_ret, close_unless_closes].
  destruct (Value_Int ext cv) as [code e2].
  destruct (Value_Get (Some tree) "message") as [mv|];
    [|by apply defer_reading_ret, close_unless_closes].
  destruct (Value_StringBytes mv) as [msg e3].
  by apply defer_reading_ret, close_unless_closes.
Qed.

(** C6: the parsed tree has [success] equal to false. In JSON mode and in
    binary mode alike: if [code] is present and is the integer [c] and
    [message] is present and is the string [m], the operation returns nil
    metadata and [OptidashError c m]; if [code] or [message] is missing it
    returns [ErrNoSuccess]. *)
Theorem failure_envelope_error (ext : Externals) (r : Request) (w : World)
    (tree : Value) :
  Value_Get (Some tree) "success" = Some VFalse ->
  (forall w2 : World,
     json_response ext r w (Some tree) w2 ->
     (forall (raw : string) (c : Z) (m : string),
        Value_Get (Some tree) "code" = Some (VNumber raw) ->
        number_Int ext raw = (c, None) ->
        Value_Get (Some tree) "message" = Some (VString m) ->
        ToJSON ext r w = Ret (None, Some (OptidashError c m)) w2) /\
     (Value_Get (Some tree) "code" = None \/
      Value_Get (Some tree) "message" = None ->
      ToJSON ext r w = Ret (None, Some ErrNoSuccess) w2)) /\
  (forall (rp : Response) (w1 : World),
     binary_response ext r w rp w1 ->
     meta_header ext rp (Some tree) ->
     (forall (raw : string) (c : Z) (m : string),
        Value_Get (Some tree) "code" = Some (VNumber raw) ->
        number_Int ext raw = (c, None) ->
        Value_Get (Some tree) "message" = Some (VString m) ->
        ToReader ext r w
          = Ret (None, None, Some (OptidashError c m)) (body_closed_in rp w1)) /\
     (Value_Get (Some tree) "code" = None \/
      Value_Get (Some tree) "message" = None ->
      ToReader ext r w
        = Ret (None, None, Some ErrNoSuccess) (body_closed_in rp w1))).
Proof.
  intros Hs. split.
  - intros w2 Hresp. rewrite (ToJSON_failure ext r w tree w2 Hresp Hs). split.
    + intros raw c m Hc Hn Hm. rewrite Hc, Hm.
      unfold code_or_zero, message_or_empty. cbn [Value_Int Value_StringBytes].
      by rewrite Hn.
    + intros [Hc|Hm]; [by rewrite Hc|].
      rewrite Hm. by destruct (Value_Get (Some tree) "code").
  - intros rp w1 Hb Hmeta.
    rewrite (ToReader_failure ext r w rp w1 tree Hb Hmeta Hs). split.
    + intros raw c m Hc Hn Hm. rewrite Hc, Hm.
      unfold code_or_zero, message_or_empty. cbn [Value_Int Value_StringBytes].
      by rewrite Hn.
    + intros [Hc|Hm]; [by rewrite Hc|].
      rewrite Hm. by destruct (Value_Get (Some tree) "code").
Qed.

(** C6 on the answer with code 42 and message [bad input], in both modes. *)
Lemma failure_envelope_error_witness :
  ToJSON libs failing_fetch world0
    = Ret (None, Some (OptidashError 42 "bad input"))
        (outcome_world (ToJSON libs failing_fetch world0)) /\
  ToReader libs failing_fetch world0
    = Ret (None, None, Some (OptidashError 42 "bad input"))
        (body_closed_in (first_response (meta_of json_failure))
           (outcome_world (execute libs (binary_request failing_fetch) world0))).
Proof.
  assert (Hs : Value_Get (Some failure_tree) "success" = Some VFalse)
    by reflexivity.
  destruct (failure_envelope_error libs failing_fetch world0 failure_tree Hs)
    as [HJ HB].
  split.
  - assert (Hresp : json_response libs failing_fetch world0 (Some failure_tree)
                      (outcome_world (ToJSON libs failing_fetch world0))).
    { exists (first_response (meta_of json_failure)),
             (outcome_world (execute libs failing_fetch world0)), json_failure.
      vm_compute. repeat split. }
    apply (proj1 (HJ _ Hresp) "42" 42%Z "bad input"); vm_compute; reflexivity.
  - assert (Hresp : binary_response libs failing_fetch world0
                      (first_response (meta_of json_failure))
                      (outcome_world (execute libs (binary_request failing_fetch) world0))).
    { vm_compute. repeat split. }
    assert (Hmeta : meta_header libs (first_response (meta_of json_failure))
                      (Some failure_tree)).
    { split; [vm_compute; discriminate | vm_compute; reflexivity]. }
    apply (proj1 (HB _ _ Hresp Hmeta) "42" 42%Z "bad input");
      vm_compute; reflexivity.
Defined.

Lemma ToJSON_no_success ext r w tree w2 :
  json_response ext r w (Some tree) w2 ->
  (Value_Get (Some tree) "success" = None \/
   exists v, Value_Get (Some tree) "success" = Some v /\ snd (Value_Bool v) <> None) ->
  ToJSON ext r w = Ret (None, Some ErrNoSuccess) w2.
Proof.
  intros (rp & w1 & body & Hexec & Hread & Hparse) Hs.
  unfold ToJSON. go_step Hexec. go_step Hread. rewrite Hparse. cbv beta iota.
  destruct Hs as [Hs|(v & Hs & Hv)]; rewrite Hs; [reflexivity|].
  destruct (Value_Bool v) as [b [e|]]; [reflexivity|]. by cbn in Hv.
Qed.

Lemma ToReader_no_success ext r w rp w1 tree :
  binary_response ext r w rp w1 ->
  meta_header ext rp (Some tree) ->
  (Value_Get (Some tree) "success" = None \/
   exists v, Value_Get (Some tree) "success" = Some v /\ snd (Value_Bool v) <> None) ->
  ToReader ext r w = Ret (None, None, Some ErrNoSuccess) (body_closed_in rp w1).
Proof.
  intros Hb (Hne & Hparse) Hsucc. to_reader_start Hb.
  rewrite bool_decide_eq_true_2 by exact Hne. rewrite Hparse. cbv beta iota.
  destruct Hsucc as [Hs|(v & Hs & Hv)]; rewrite Hs;
    [by apply defer_reading_ret, close_unless_closes|].
  destruct (Value_Bool v) as [b [e|]];
    [by apply defer_reading_ret, close_unless_closes|]. by cbn in Hv.
Qed.

(** C7: the parsed tree is not nil and its [success] field is missing, or is
    present and [Bool] fails on it. In JSON mode and in binary mode alike the
    operation returns [ErrNoSuccess]; it returns, it does not panic. *)
Theorem missing_success_is_envelope_error (ext : Externals) (r : Request)
    (w : World) (tree : Value) :
  (Value_Get (Some tree) "success" = None \/
   exists v : Value,
     Value_Get (Some tree) "success" = Some v /\ snd (Value_Bool v) <> None) ->
  (forall w2 : World,
     json_response ext r w (Some tree) w2 ->
     ToJSON ext r w = Ret (None, Some ErrNoSuccess) w2) /\
  (forall (rp : Response) (w1 : World),
     binary_response ext r w rp w1 ->
     meta_header ext rp (Some tree) ->
     ToReader ext r w
       = Ret (None, None, Some ErrNoSuccess) (body_closed_in rp w1)).
Proof.
  intros Hs. split.
  - intros w2 Hresp. by apply ToJSON_no_success with tree.
  - intros rp w1 Hb Hmeta. by apply ToReader_no_success with tree.
Qed.

(** C7 on the answer [{"foo": 1}], in both modes. *)
Lemma missing_success_is_envelope_error_witness :
  ToJSON libs no_success_fetch world0
    = Ret (None, Some ErrNoSuccess)
        (outcome_world (ToJSON libs no_success_fetch world0)) /\
  ToReader libs no_success_fetch world0
    = Ret (None, None, Some ErrNoSuccess)
        (body_closed_in (first_response (meta_of json_no_success))
           (outcome_world (execute libs (binary_request no_success_fetch) world0))).
Proof.
  assert (Hs : Value_Get (Some no_success_tree) "success" = None \/
               exists v : Value,
                 Value_Get (Some no_success_tree) "success" = Some v /\
                 snd (Value_Bool v) <> None)
    by (left; reflexivity).
  destruct (missing_success_is_envelope_error libs no_success_fetch world0
              no_success_tree Hs) as [HJ HB].
  split.
  - apply HJ.
    exists (first_response (meta_of json_no_success)),
           (outcome_world (execute libs no_success_fetch world0)), json_no_success.
    vm_compute. repeat split.
  - apply HB.
    + vm_compute. repeat split.
    + split; [vm_compute; discriminate | vm_compute; reflexivity].
Defined.

(** The parser of [libs], like fastjson's, hands back a tree or an error:
    never a nil tree with a nil error. No response body takes [ToJSON]
    through the branch where [result] is nil. *)
Lemma Parse_tree_or_error (s : string) : fastjson_Parse libs s <> (None, None).
Proof.
  cbn [fastjson_Parse libs]. unfold MiniJSON.Parse.
  destruct (MiniJSON.parse_value (S (String.length s)) s) as [[v tail]|];
    [|discriminate].
  destruct (MiniJSON.skip_space tail); discriminate.
Qed.

(** C8 (counterexample): the body [null]. The parser returns a tree that is
    not nil, the JSON value null; it has no [success] field, and [ToJSON]
    returns a nil result and [ErrNoSuccess]: a body whose parsed tree is null
    is not treated as a success. *)
Lemma null_body_is_not_a_success :
  fastjson_Parse libs "null" = (Some VNull, None) /\
  outcome_value (ToJSON libs null_fetch world0) = Some (None, Some ErrNoSuccess) /\
  ~ (forall (r : Request) (w w2 : World),
       json_response libs r w (Some VNull) w2 ->
       ToJSON libs r w = Ret (Some VNull, None) w2).
Proof.
  split; [reflexivity|]. split; [by vm_compute|].
  intros H.
  assert (Hresp : json_response libs null_fetch world0 (Some VNull)
                    (outcome_world (ToJSON libs null_fetch world0))).
  { exists (first_response ∅), (outcome_world (execute libs null_fetch world0)), "null".
    vm_compute. repeat split. }
  specialize (H _ _ _ Hresp).
  assert (Hv : outcome_value (ToJSON libs null_fetch world0)
               = Some (None, Some ErrNoSuccess)) by (by vm_compute).
  rewrite H in Hv. discriminate Hv.
Qed.

(** C8 (amended): in JSON mode, when the parsed tree has [success] equal to
    true, [ToJSON] returns that very tree, with all its fields, and a nil
    error; when the parsed tree is the JSON value null, [ToJSON] returns a
    nil result and [ErrNoSuccess]. *)
Theorem ToJSON_success_returns_tree (ext : Externals) (r : Request) (w : World)
    (tree : Value) (w2 : World) :
  json_response ext r w (Some tree) w2 ->
  (Value_Get (Some tree) "success" = Some VTrue ->
   ToJSON ext r w = Ret (Some tree, None) w2) /\
  (tree = VNull ->
   ToJSON ext r w = Ret (None, Some ErrNoSuccess) w2).
Proof.
  intros (rp & w1 & body & Hexec & Hread & Hparse).
  unfold ToJSON. go_step Hexec. go_step Hread. rewrite Hparse. cbv beta iota.
  split.
  - intros Hs. by rewrite Hs.
  - intros ->. reflexivity.
Qed.

(** The amended C8 on the body [{"success": true, "foo": 1}]: the tree
    returned has [foo] = 1. And on the body [null]: [ErrNoSuccess]. *)
Lemma ToJSON_success_returns_tree_witness :
  (ToJSON libs foo_fetch world0
     = Ret (Some foo_tree, None) (outcome_world (ToJSON libs foo_fetch world0)) /\
   Value_Get (Some foo_tree) "foo" = Some (VNumber "1") /\
   Value_Int libs (VNumber "1") = (1%Z, None)) /\
  ToJSON libs null_fetch world0
    = Ret (None, Some ErrNoSuccess) (outcome_world (ToJSON libs null_fetch world0)).
Proof.
  split; [split; [|split; reflexivity]|].
  - refine (proj1 (ToJSON_success_returns_tree libs foo_fetch world0 foo_tree _ _) _).
    + exists (first_response ∅),
             (outcome_world (execute libs foo_fetch world0)), json_success_foo.
      vm_compute. repeat split.
    + reflexivity.
  - refine (proj2 (ToJSON_success_returns_tree libs null_fetch world0 VNull _ _) _).
    + exists (first_response ∅),
             (outcome_world (execute libs null_fetch world0)), "null".
      vm_compute. repeat split.
    + reflexivity.
Defined.

(** Binary mode, the header yields the empty string (it is absent, or has no
    value, or an empty one): no envelope is parsed or validated. *)
Lemma ToReader_empty_meta ext r w rp w1 :
  binary_response ext r w rp w1 ->
  Header_Get (resp_header rp) "X-Optidash-Meta" = EmptyString ->
  ToReader ext r w = Ret (None, resp_body rp, None) w1.
Proof.
  intros Hb Hh. to_reader_start Hb.
  rewrite bool_decide_eq_false_2 by (intros Hne; by apply Hne).
  by apply defer_reading_ret.
Qed.

(** C10: the exchange in binary mode succeeded and the response has no
    [X-Optidash-Meta] header. [ToReader] returns nil metadata, the body of
    the response and a nil error, in the world the exchange left: the body
    was neither read nor closed, and no envelope was validated. *)
Theorem ToReader_without_meta_header (ext : Externals) (r : Request)
    (w : World) (rp : Response) (w1 : World) :
  binary_response ext r w rp w1 ->
  resp_header rp !! "X-Optidash-Meta" = None ->
  ToReader ext r w = Ret (None, resp_body rp, None) w1.
Proof.
  intros Hb Hh. apply ToReader_empty_meta; [exact Hb|].
  unfold Header_Get. by rewrite Hh.
Qed.

(** C10 on an answer without headers: the body comes back open. *)
Lemma ToReader_without_meta_header_witness :
  ToReader libs foo_fetch world0
    = Ret (None, Some 0%nat, None)
        (outcome_world (execute libs (binary_request foo_fetch) world0)) /\
  bodies (outcome_world (execute libs (binary_request foo_fetch) world0))
    = [fresh_body json_success_foo].
Proof.
  split; [|by vm_compute].
  apply (ToReader_without_meta_header libs foo_fetch world0 (first_response ∅)).
  - vm_compute. repeat split.
  - reflexivity.
Defined.

(** Binary mode, [success] true: the tree and the open body. *)
Lemma ToReader_success ext r w rp w1 tree :
  binary_response ext r w rp w1 ->
  meta_header ext rp (Some tree) ->
  Value_Get (Some tree) "success" = Some VTrue ->
  ToReader ext r w = Ret (Some tree, resp_body rp, None) w1.
Proof.
  intros Hb (Hne & Hparse) Hsucc. to_reader_start Hb.
  rewrite bool_decide_eq_true_2 by exact Hne. rewrite Hparse. cbv beta iota.
  rewrite Hsucc. by apply defer_reading_ret.
Qed.

(** ** Who closes the body of the response *)

Lemma body_closed_in_lookup rp w1 h st :
  resp_body rp = Some h -> bodies w1 !! h = Some st ->
  bodies (body_closed_in rp w1) !! h = Some (closed_body st).
Proof.
  intros Hb Hl. unfold body_closed_in. rewrite Hb, Hl. cbn [bodies set_bodies].
  apply list_lookup_insert_eq. by eapply lookup_lt_Some.
Qed.

(** Whatever [ToReader] returns after a successful exchange, it returns it
    either with a nil error in the world the exchange left, or with an error
    in the world where the body of the response is closed. *)
Lemma ToReader_outcome ext r w rp w1 :
  binary_response ext r w rp w1 ->
  (exists meta, ToReader ext r w = Ret (meta, resp_body rp, None) w1) \/
  (exists e, ToReader ext r w = Ret (None, None, Some e) (body_closed_in rp w1)).
Proof.
  intros Hb. to_reader_start Hb.
  split_cases;
    first [ left; eexists; by apply defer_reading_ret
          | right; eexists; by apply defer_reading_ret, close_unless_closes ].
Qed.

Lemma io_ReadAll_body_open (h : nat) (w1 : World) :
  open_in w1 h ->
  exists data e w2,
    io_ReadAll (Some (BodyReader h)) w1 = Ret (data, e) w2 /\ open_in w2 h.
Proof.
  intros (st & Hl & Hc). unfold io_ReadAll. rewrite Hl, Hc.
  destruct (b_consumed st).
  - do 3 eexists. split; [reflexivity|]. by exists st.
  - do 3 eexists. split; [reflexivity|]. eexists. split.
    + cbn [bodies set_bodies].
      rewrite list_lookup_insert_eq by (by eapply lookup_lt_Some). reflexivity.
    + reflexivity.
Qed.

(** [ToJSON] never closes the body of the response it obtained: whatever
    path it takes after the exchange, the body is open when it returns. *)
Lemma ToJSON_leaves_body_open ext r w rp w1 h :
  execute ext r w = Ret (Some rp, None) w1 ->
  resp_body rp = Some h ->
  open_in w1 h ->
  open_in (outcome_world (ToJSON ext r w)) h.
Proof.
  intros Hexec Hb Hopen. unfold ToJSON. go_step Hexec. rewrite Hb.
  cbn [fmap option_fmap option_map].
  destruct (io_ReadAll_body_open h w1 Hopen) as (data & e & w2 & Hread & Hopen2).
  go_step Hread.
  split_cases; exact Hopen2.
Qed.

Lemma io_Write_bodies (dst : option io_Writer) (data : string) (w : World) :
  bodies (outcome_world (io_Write dst data w)) = bodies w.
Proof.
  unfold io_Write.
  split_cases; reflexivity.
Qed.

Lemma io_Copy_leaves_body_open (dst : option io_Writer) (h : nat) (w : World) :
  open_in w h ->
  open_in (outcome_world (io_Copy dst (Some (BodyReader h)) w)) h.
Proof.
  intros Hopen. unfold io_Copy.
  destruct (io_ReadAll_body_open h w Hopen) as (data & e & w2 & Hread & Hopen2).
  go_step Hread. unfold bind, ret.
  pose proof (io_Write_bodies dst data w2) as Hb.
  destruct (io_Write dst data w2) as [werr w3|w3]; cbn [outcome_world] in *;
    unfold open_in; by rewrite Hb.
Qed.

(** [CopyTo] never closes the body [ToReader] handed over, whether the copy
    succeeds or fails. *)
Lemma CopyTo_leaves_body_open ext r w meta h w1 dst :
  ToReader ext r w = Ret (meta, Some h, None) w1 ->
  open_in w1 h ->
  open_in (outcome_world (CopyTo ext r dst w)) h.
Proof.
  intros HR Hopen. unfold CopyTo. go_step HR.
  cbn [fmap option_fmap option_map].
  pose proof (io_Copy_leaves_body_open dst h w1 Hopen) as Hc.
  unfold bind. destruct (io_Copy dst (Some (BodyReader h)) w1) as [[e|] w2|w2];
    exact Hc.
Qed.

Lemma os_OpenFile_bodies (name : string) (flag perm : Z) (w : World) :
  bodies (outcome_world (os_OpenFile name flag perm w)) = bodies w.
Proof.
  unfold os_OpenFile, new_fd.
  split_cases; reflexivity.
Qed.

Lemma File_Close_bodies (file : option nat) (w : World) :
  File_Close file w = Ret tt (outcome_world (File_Close file w)) /\
  bodies (outcome_world (File_Close file w)) = bodies w.
Proof.
  unfold File_Close. destruct file as [fd|]; [|done].
  destruct (fds w !! fd); done.
Qed.

(** [ToFile] never closes the body [ToReader] handed over, whether it
    succeeds, cannot open the file or cannot copy. *)
Lemma ToFile_leaves_body_open ext r w meta h w1 path perm :
  ToReader ext r w = Ret (meta, Some h, None) w1 ->
  open_in w1 h ->
  open_in (outcome_world (ToFile ext r path perm w)) h.
Proof.
  intros HR Hopen. unfold ToFile. go_step HR.
  cbn [fmap option_fmap option_map].
  pose proof (os_OpenFile_bodies path (Z.lor (Z.lor O_CREATE O_RDWR) O_TRUNC) perm w1) as Ho.
  unfold bind at 1.
  destruct (os_OpenFile path (Z.lor (Z.lor O_CREATE O_RDWR) O_TRUNC) perm w1)
    as [[file [e|]] w2|w2]; cbn [outcome_world] in Ho.
  - unfold ret, open_in. cbn [outcome_world]. by rewrite Ho.
  - assert (Hopen2 : open_in w2 h) by (unfold open_in; by rewrite Ho).
    pose proof (io_Copy_leaves_body_open (Some (FileWriter file)) h w2 Hopen2) as Hc.
    unfold defer, bind.
    destruct (io_Copy (Some (FileWriter file)) (Some (BodyReader h)) w2)
      as [[e|] w3|w3]; cbn [outcome_world] in Hc; unfold ret;
      destruct (File_Close_bodies file w3) as [Hr Hb]; rewrite Hr;
      cbn [outcome_world]; unfold open_in; by rewrite Hb.
  - unfold open_in. cbn [outcome_world]. by rewrite Ho.
Qed.

Lemma substring_all (s : string) : String.substring 0 (String.length s) s = s.
Proof. induction s as [|c s IH]; [reflexivity|]. cbn. by rewrite IH. Qed.

Lemma io_ReadAll_fresh (h : nat) (w : World) (st : BodyState) :
  bodies w !! h = Some st -> fresh st ->
  io_ReadAll (Some (BodyReader h)) w
    = Ret (b_data st, None) (set_bodies (<[h := read_body st]> (bodies w)) w).
Proof.
  intros Hl (Hc & Hr & He). unfold io_ReadAll. rewrite Hl, Hc, Hr, He.
  unfold read_body. by rewrite He.
Qed.

(** On success [CopyTo] has appended the whole stream to the writer and has
    not closed the writer; the body of the response is read, and open. *)
Lemma CopyTo_copies ext r w meta h w1 st k sk :
  ToReader ext r w = Ret (meta, Some h, None) w1 ->
  bodies w1 !! h = Some st -> fresh st ->
  sinks w1 !! k = Some sk -> s_limit sk = None ->
  exists w',
    CopyTo ext r (Some (SinkWriter k)) w = Ret (meta, None) w' /\
    sinks w' !! k = Some {| s_written := s_written sk +:+ b_data st;
                            s_limit := None; s_closed := s_closed sk |} /\
    bodies w' !! h = Some (read_body st).
Proof.
  intros HR Hl Hf Hk Hlim. unfold CopyTo. go_step HR.
  cbn [fmap option_fmap option_map]. unfold io_Copy.
  unfold bind at 1. go_step (io_ReadAll_fresh h w1 st Hl Hf).
  unfold bind, io_Write. cbn [sinks set_bodies]. rewrite Hk, Hlim.
  rewrite substring_all, Nat.leb_refl. unfold ret.
  eexists. split; [reflexivity|]. cbn [sinks bodies set_sinks set_bodies].
  split.
  - by rewrite list_lookup_insert_eq by (by eapply lookup_lt_Some).
  - by rewrite list_lookup_insert_eq by (by eapply lookup_lt_Some).
Qed.

Lemma binary_open_flags :
  has_flag (Z.lor (Z.lor O_CREATE O_RDWR) O_TRUNC) O_WRONLY = false /\
  has_flag (Z.lor (Z.lor O_CREATE O_RDWR) O_TRUNC) O_RDWR = true /\
  has_flag (Z.lor (Z.lor O_CREATE O_RDWR) O_TRUNC) O_TRUNC = true /\
  has_flag (Z.lor (Z.lor O_CREATE O_RDWR) O_TRUNC) O_CREATE = true.
Proof. by vm_compute. Qed.

(** A successful [os.OpenFile] with the flags of [ToFile]: the descriptor is
    new, and the file is there and empty, with the mode it had or, if it was
    created, the mode asked for cleared of the bits of the umask. *)
Lemma os_OpenFile_truncating (path : string) (perm : Z) (w1 : World) (fd : nat)
    (w2 : World) :
  os_OpenFile path (Z.lor (Z.lor O_CREATE O_RDWR) O_TRUNC) perm w1
    = Ret (Some fd, None) w2 ->
  fd = length (fds w1) /\
  w2 = set_fds (fds w1 ++ [{| fd_path := path; fd_closed := false |}])
         (set_fs (<[path := RegFile match fs w1 !! path with
                                    | Some (RegFile mode _) => mode
                                    | _ => created_mode perm (umask w1)
                                    end EmptyString]> (fs w1)) w1).
Proof.
  destruct binary_open_flags as (F1 & F2 & F3 & F4).
  unfold os_OpenFile. rewrite F1, F2, F3, F4. cbn [orb andb]. unfold new_fd.
  destruct (fs w1 !! path) as [[mode content|]|].
  - case_bool_decide; [discriminate|]. by intros [= <- <-].
  - discriminate.
  - destruct (create_refused path w1); [discriminate|]. by intros [= <- <-].
Qed.

(** When the file at [path] can be opened, [ToFile] succeeds on a fresh
    stream: the file holds exactly the bytes of the stream (created with the
    mode asked for, cleared of the umask, or emptied first and keeping its
    mode) and is closed; the body of the response is read, and open. *)
Lemma ToFile_writes ext r w meta h w1 st path perm fd w2 :
  ToReader ext r w = Ret (meta, Some h, None) w1 ->
  bodies w1 !! h = Some st -> fresh st ->
  os_OpenFile path (Z.lor (Z.lor O_CREATE O_RDWR) O_TRUNC) perm w1
    = Ret (Some fd, None) w2 ->
  exists w',
    ToFile ext r path perm w = Ret (meta, None) w' /\
    fs w' !! path =
      Some (RegFile match fs w1 !! path with
                    | Some (RegFile mode _) => mode
                    | _ => created_mode perm (umask w1)
                    end (b_data st)) /\
    fds w' !! fd = Some {| fd_path := path; fd_closed := true |} /\
    bodies w' !! h = Some (read_body st).
Proof.
  intros HR Hl Hf Hopen. unfold ToFile. go_step HR.
  cbn [fmap option_fmap option_map].
  destruct (os_OpenFile_truncating path perm w1 fd w2 Hopen) as [-> Hw2].
  go_step Hopen.
  assert (Hl2 : bodies w2 !! h = Some st) by (by rewrite Hw2).
  unfold defer, io_Copy. unfold bind at 1.
  go_step (io_ReadAll_fresh h w2 st Hl2 Hf).
  unfold bind, io_Write. cbn [mbind option_bind fds set_bodies fs].
  rewrite Hw2. cbn [fds fs set_fds set_fs].
  rewrite list_lookup_middle by done. cbn [fd_closed fd_path].
  rewrite lookup_insert_eq. unfold ret, File_Close.
  cbn [fds fs set_fds set_fs set_bodies].
  rewrite list_lookup_middle by done.
  eexists. split; [reflexivity|]. cbn [fds fs bodies set_fds set_fs set_bodies fd_path].
  split; [by rewrite lookup_insert_eq|]. split.
  - rewrite list_lookup_insert_eq; [done|]. rewrite length_app. cbn. lia.
  - by rewrite list_lookup_insert_eq by (by eapply lookup_lt_Some).
Qed.

(** When the output file cannot be opened, [ToFile] returns the error of
    [os.OpenFile], in the world [ToReader] left: no file is created or
    emptied. *)
Lemma ToFile_open_error ext r w meta body w1 path perm file e w2 :
  ToReader ext r w = Ret (meta, body, None) w1 ->
  os_OpenFile path (Z.lor (Z.lor O_CREATE O_RDWR) O_TRUNC) perm w1
    = Ret (file, Some e) w2 ->
  ToFile ext r path perm w = Ret (None, Some e) w1 /\ w2 = w1.
Proof.
  intros HR Ho.
  assert (Hw : w2 = w1).
  { destruct binary_open_flags as (F1 & F2 & F3 & F4).
    revert Ho. unfold os_OpenFile, new_fd. rewrite F1, F2, F3, F4. cbn [orb andb].
    split_cases; intros Ho; by simplify_eq. }
  subst w2. split; [|reflexivity]. unfold ToFile. go_step HR. by go_step Ho.
Qed.

(** When the directory of the output file is missing, [ToFile] returns the
    error of [os.OpenFile] after the exchange: nothing is created, and the
    body of the response is left open. *)
Lemma ToFile_missing_directory :
  outcome_value (ToFile libs image_fetch "nodir/out.png" 420 world0)
    = Some (None, Some (ExternalError "open: no such file or directory")) /\
  fs (outcome_world (ToFile libs image_fetch "nodir/out.png" 420 world0)) = fs world0 /\
  b_closed <$> bodies (outcome_world (ToFile libs image_fetch "nodir/out.png" 420 world0))
    = [false].
Proof. by vm_compute. Qed.

(** A file the process may not write keeps its content. *)
Lemma ToFile_write_protected :
  outcome_value (ToFile libs image_fetch "old.png" 420 protected_world)
    = Some (None, Some (ExternalError "open: permission denied")) /\
  fs (outcome_world (ToFile libs image_fetch "old.png" 420 protected_world))
    = fs protected_world.
Proof. by vm_compute. Qed.

(** The mode of a file [ToFile] creates is the mode asked for without the
    bits of the umask: 0666 under the umask 022 gives 0644. *)
Lemma ToFile_applies_umask :
  fs (outcome_world (ToFile libs image_fetch "out.png" 438 world0)) !! "out.png"
    = Some (RegFile 420 "PNGDATA").
Proof. by vm_compute. Qed.

(** C3 (the code departs from the claim): the claim asks that every error
    path after a response was obtained closes its body. Four error paths on
    which the body is open when the operation returns: [ToJSON] on an
    envelope without [success]; [ToFile] when the path is a directory;
    [ToFile] when the stream breaks off; [CopyTo] when the writer fails. *)
Theorem error_paths_leave_body_open :
  (outcome_value (ToJSON libs no_success_fetch world0)
     = Some (None, Some ErrNoSuccess) /\
   b_closed <$> bodies (outcome_world (ToJSON libs no_success_fetch world0))
     = [false]) /\
  (outcome_value (ToFile libs image_fetch "dir" 420 world0)
     = Some (None, Some (ExternalError "open: is a directory")) /\
   b_closed <$> bodies (outcome_world (ToFile libs image_fetch "dir" 420 world0))
     = [false]) /\
  (outcome_value (ToFile libs broken_fetch "out.png" 420 world0)
     = Some (None, Some (ExternalError "unexpected EOF")) /\
   b_closed <$> bodies (outcome_world (ToFile libs broken_fetch "out.png" 420 world0))
     = [false]) /\
  (outcome_value (CopyTo libs image_fetch (Some (SinkWriter 1)) world0)
     = Some (None, Some (ExternalError "write: short write")) /\
   b_closed <$> bodies (outcome_world
                          (CopyTo libs image_fetch (Some (SinkWriter 1)) world0))
     = [false]).
Proof. vm_compute. repeat split. Qed.

(** C4 (the code departs from the claim): on success [CopyTo] has copied the
    whole stream into the writer and has not closed the writer, as claimed;
    the body of the response, which the claim wants closed, is open. *)
Theorem CopyTo_success_leaves_body_open :
  outcome_value (CopyTo libs image_fetch (Some (SinkWriter 0)) world0)
    = Some (Some (VObject [("success", VTrue)]), None) /\
  sinks (outcome_world (CopyTo libs image_fetch (Some (SinkWriter 0)) world0)) !! 0%nat
    = Some {| s_written := "PNGDATA"; s_limit := None; s_closed := false |} /\
  bodies (outcome_world (CopyTo libs image_fetch (Some (SinkWriter 0)) world0))
    = [{| b_data := "PNGDATA"; b_err := None; b_consumed := true;
          b_closed := false |}].
Proof. vm_compute. repeat split. Qed.

(** C5 (the code departs from the claim): on success [ToFile] has created
    the absent file with the given mode, or emptied the existing one, has
    written exactly the bytes of the stream and has closed the file, as
    claimed; the body of the response, which the claim wants closed, is
    open. *)
Theorem ToFile_success_leaves_body_open :
  (outcome_value (ToFile libs image_fetch "out.png" 420 world0)
     = Some (Some (VObject [("success", VTrue)]), None) /\
   fs world0 !! "out.png" = None /\
   fs (outcome_world (ToFile libs image_fetch "out.png" 420 world0)) !! "out.png"
     = Some (RegFile 420 "PNGDATA") /\
   fds (outcome_world (ToFile libs image_fetch "out.png" 420 world0))
     = [{| fd_path := "out.png"; fd_closed := true |}] /\
   b_closed <$> bodies (outcome_world (ToFile libs image_fetch "out.png" 420 world0))
     = [false]) /\
  (outcome_value (ToFile libs image_fetch "old.png" 420 world0)
     = Some (Some (VObject [("success", VTrue)]), None) /\
   fs world0 !! "old.png" = Some (RegFile 384 "OLD") /\
   fs (outcome_world (ToFile libs image_fetch "old.png" 420 world0)) !! "old.png"
     = Some (RegFile 384 "PNGDATA") /\
   fds (outcome_world (ToFile libs image_fetch "old.png" 420 world0))
     = [{| fd_path := "old.png"; fd_closed := true |}] /\
   b_closed <$> bodies (outcome_world (ToFile libs image_fetch "old.png" 420 world0))
     = [false]).
Proof. vm_compute. repeat split. Qed.

(** * Further properties *)

Ltac each_setter H :=
  repeat (apply elem_of_cons in H as [[= -> ->]|H]);
  [..|by apply elem_of_nil in H].


(** X5: setters of two different steps commute: the builder is the same in
    either order. *)
Theorem setters_commute (n1 n2 : string) (f g : Request -> P -> Request)
    (r : Request) (a b : P) :
  (n1, f) ∈ step_setters -> (n2, g) ∈ step_setters -> n1 <> n2 ->
  f (g r a) b = g (f r b) a.
Proof.
  unfold step_setters, serialized_setters. intros H1 H2 Hne.
  each_setter H1; each_setter H2; first [reflexivity | by destruct Hne].
Qed.

Lemma setter_frame (name : string) (f : Request -> P -> Request) (r : Request) (d : P) :
  (name, f) ∈ step_setters ->
  client (f r d) = client r /\ http (f r d) = http r /\
  source (f r d) = source r /\ reader (f r d) = reader r /\
  location (f r d) = location r /\ context (f r d) = context r /\
  response (f r d) = response r.
Proof. unfold step_setters, serialized_setters. intros H. each_setter H; done. Qed.

(** ** The parameter map as a fold *)

Lemma build_params_put_all (r : Request) :
  build_params r =
    if bool_decide (source r = fetchSource)
    then <["url" := AString (location r)]> (put_all (serialized_steps r) ∅)
    else put_all (serialized_steps r) ∅.
Proof. reflexivity. Qed.

Lemma put_all_cons (n : string) (b : P) (l : list (string * P))
    (init : gmap string Any) :
  put_all ((n, b) :: l) init = put_all l (put_step n b init).
Proof. reflexivity. Qed.

Lemma set_bag_cons (name : string) (bag : P) (n : string) (b : P)
    (l : list (string * P)) :
  set_bag name bag ((n, b) :: l) =
    (n, if decide (n = name) then bag else b) :: set_bag name bag l.
Proof. unfold set_bag. cbn. by case_decide. Qed.

Lemma put_all_agree (l : list (string * P)) (init init' : gmap string Any) (k : string) :
  init !! k = init' !! k -> put_all l init !! k = put_all l init' !! k.
Proof.
  revert init init'. induction l as [|[n b] l IH]; intros init init' H; [exact H|].
  rewrite !put_all_cons. apply IH. rewrite !lookup_put_step.
  case_decide; [|exact H]. destruct b; [reflexivity|exact H].
Qed.

Lemma put_all_notin (l : list (string * P)) (init : gmap string Any) (k : string) :
  k ∉ l.*1 -> put_all l init !! k = init !! k.
Proof.
  revert init. induction l as [|[n b] l IH]; intros init H; [reflexivity|].
  rewrite fmap_cons in H. apply not_elem_of_cons in H as [Hn Hl].
  rewrite put_all_cons, (IH _ Hl), lookup_put_step. cbn in Hn.
  case_decide; congruence.
Qed.

Lemma set_bag_names (name : string) (bag : P) (l : list (string * P)) :
  (set_bag name bag l).*1 = l.*1.
Proof.
  induction l as [|[n b] l IH]; [reflexivity|].
  rewrite set_bag_cons, !fmap_cons, IH. reflexivity.
Qed.

Lemma put_all_set_bag_other (l : list (string * P)) (name : string) (bag : P)
    (init : gmap string Any) (k : string) :
  k <> name -> put_all (set_bag name bag l) init !! k = put_all l init !! k.
Proof.
  intros Hk. revert init. induction l as [|[n b] l IH]; intros init; [reflexivity|].
  rewrite set_bag_cons, !put_all_cons, IH.
  apply put_all_agree. rewrite !lookup_put_step.
  case_decide as Hn; [|reflexivity]. subst k.
  case_decide; congruence.
Qed.

Lemma put_all_set_bag_same (l : list (string * P)) (name : string) (bag : P)
    (init : gmap string Any) :
  name ∈ l.*1 -> NoDup l.*1 ->
  put_all (set_bag name bag l) init !! name =
    match bag with
    | Some m => Some (AMap m)
    | None => init !! name
    end.
Proof.
  revert init. induction l as [|[n b] l IH]; intros init Hin Hnd.
  - by apply elem_of_nil in Hin.
  - rewrite fmap_cons in Hin, Hnd. cbn [fst] in Hin, Hnd.
    apply NoDup_cons in Hnd as [Hn Hnd].
    rewrite set_bag_cons, put_all_cons. case_decide as He.
    + subst n. rewrite put_all_notin by (by rewrite set_bag_names).
      rewrite lookup_put_step. by case_decide.
    + apply elem_of_cons in Hin as [Hin|Hin]; [congruence|].
      rewrite (IH _ Hin Hnd). destruct bag; [reflexivity|].
      rewrite lookup_put_step. case_decide; congruence.
Qed.

Lemma serialized_names_NoDup (r : Request) : NoDup (serialized_steps r).*1.
Proof. apply (bool_decide_unpack _). by vm_compute. Qed.

(** X6: a step setter whose field [execute] serializes changes the
    parameter map at its own key only; there the map holds the bag given, and
    no entry when the bag is nil (a nil bag unsets the step). *)
Theorem setter_then_payload (name : string) (f : Request -> P -> Request)
    (r : Request) (bag : P) (k : string) :
  (name, f) ∈ serialized_setters ->
  build_params (f r bag) !! k =
    if decide (k = name) then AMap <$> bag else build_params r !! k.
Proof.
  intros H.
  assert (Hf : serialized_steps (f r bag) = set_bag name bag (serialized_steps r) /\
               source (f r bag) = source r /\ location (f r bag) = location r /\
               name ∈ (serialized_steps r).*1 /\ name <> "url").
  { unfold serialized_setters in H. each_setter H;
      (split; [reflexivity|]); (split; [reflexivity|]); (split; [reflexivity|]);
      (split; [|done]); cbn; set_solver. }
  destruct Hf as (Hsteps & Hsrc & Hloc & Hin & Hurl).
  rewrite !build_params_put_all, Hsteps, Hsrc, Hloc.
  pose proof (serialized_names_NoDup r) as Hnd.
  case_decide as Hk.
  - subst k. transitivity (put_all (set_bag name bag (serialized_steps r)) ∅ !! name).
    { case_bool_decide; [by rewrite lookup_insert_ne|reflexivity]. }
    rewrite (put_all_set_bag_same _ _ _ _ Hin Hnd). by destruct bag.
  - case_bool_decide.
    + rewrite !lookup_insert. case_decide; [reflexivity|].
      by apply put_all_set_bag_other.
    + by apply put_all_set_bag_other.
Qed.

(** X1: [NewClient] fails exactly on the empty key, returning no client; on
    any other key it returns, without error, a client that holds the key and
    the default transport. *)
Theorem NewClient_key (ext : Externals) (key : string) :
  (key = EmptyString ->
     fst (NewClient ext key) = None /\ snd (NewClient ext key) <> None) /\
  (key <> EmptyString ->
     NewClient ext key
       = (Some {| Key := key; Client_http := http_DefaultClient ext |}, None)).
Proof.
  unfold NewClient. split; intros H.
  - by rewrite bool_decide_eq_true_2.
  - by rewrite bool_decide_eq_false_2.
Qed.

(** X2: a builder fresh from [Fetch] serializes to the map with the single
    key [url], bound to the URL given; a builder fresh from [Upload] (a
    reader or a path) to the empty map. *)
Theorem fresh_builder_payload (c : Client) (url : string) (input : UploadInput)
    (r : Request) :
  build_params (Fetch c url) = {["url" := AString url]} /\
  (Upload c input = Some r -> build_params r = ∅).
Proof.
  split; [reflexivity|].
  destruct input; intros [= <-]; reflexivity.
Qed.

(** X3: on every builder the exported API can produce ([Fetch] or [Upload],
    then any chain of setters) the [response] bag is nil, the client is set,
    the source is one of the three constants, and the reader is set exactly
    for the reader source. So the branch of [execute] that returns
    [ErrInvalidSourceType] is never taken for such a builder. *)
Theorem exported_builder_invariant (r : Request) :
  exported r ->
  response r = None /\
  client r <> None /\
  (source r = readerSource \/ source r = pathSource \/ source r = fetchSource) /\
  (source r = readerSource <-> reader r <> None).
Proof.
  induction 1 as [c url|c input r Hu|name f r d Hf Hr IH|r cl Hr IH|r ctx Hr IH].
  - repeat split; try done. by right; right.
  - destruct input as [v|v|]; [| |discriminate Hu]; injection Hu as <-;
      cbn; (split; [done|]); (split; [done|]); (split; [auto|]); by split.
  - destruct (setter_frame name f r d Hf) as (-> & _ & -> & -> & _ & _ & ->).
    exact IH.
  - exact IH.
  - exact IH.
Qed.

(** X7: whatever [response] bag the builder carried, the builder [ToReader]
    executes has [response] = [{"mode": "binary"}] in its parameter map, and
    every other key as before. *)
Theorem binary_request_payload (r : Request) (k : string) :
  build_params (binary_request r) !! k =
    if decide (k = "response")
    then Some (AMap {["mode" := AString "binary"]})
    else build_params r !! k.
Proof.
  rewrite !build_params_put_all.
  change (source (binary_request r)) with (source r).
  change (location (binary_request r)) with (location r).
  change (serialized_steps (binary_request r))
    with (set_bag "response" (Some {["mode" := AString "binary"]})
            (serialized_steps r)).
  pose proof (serialized_names_NoDup r) as Hnd.
  assert (Hin : "response" ∈ (serialized_steps r).*1) by (cbn; set_solver).
  case_decide as Hk.
  - subst k. transitivity
      (put_all (set_bag "response" (Some {["mode" := AString "binary"]})
                  (serialized_steps r)) ∅ !! "response").
    { case_bool_decide; [by rewrite lookup_insert_ne|reflexivity]. }
    by rewrite (put_all_set_bag_same _ _ _ _ Hin Hnd).
  - case_bool_decide.
    + rewrite !lookup_insert. case_decide; [reflexivity|].
      by apply put_all_set_bag_other.
    + by apply put_all_set_bag_other.
Qed.

(** The end of [execute]: files and writers are as they were, and what was
    sent, if anything, is the one request described. *)
Lemma execute_send_request ext r url ct body w :
  fs (outcome_world (execute_send ext r url ct body w)) = fs w /\
  fds (outcome_world (execute_send ext r url ct body w)) = fds w /\
  sinks (outcome_world (execute_send ext r url ct body w)) = sinks w /\
  (sent (outcome_world (execute_send ext r url ct body w)) = sent w \/
   exists q c,
     sent (outcome_world (execute_send ext r url ct body w)) = sent w ++ [q] /\
     client r = Some c /\
     req_method q = "POST" /\ req_url q = url /\ req_body q = body /\
     req_context q = context r /\
     req_header q = request_headers ext r c ct).
Proof.
  unfold execute_send, http_NewRequest. cbv beta iota zeta.
  destruct (client r) as [c|]; [|by repeat split; try left].
  unfold http_Do. destruct (http r) as [cl|]; [|by repeat split; try left].
  match goal with |- context [roundTrip cl ?q0] => set (q := q0) end.
  assert (Hq : req_method q = "POST" /\ req_url q = url /\ req_body q = body /\
               req_context q = context r /\
               req_header q = request_headers ext r c ct).
  { subst q. unfold SetBasicAuth, request_headers, wants_binary.
    destruct (context r); destruct (response r) as [m|];
      try (destruct (m !! "mode") as [[]|]);
      cbn [req_method req_url req_body req_header req_context any_eq_string
           Request_Header_Set WithContext];
      try case_bool_decide; done. }
  destruct (roundTrip cl q) as [rs|e [rs|]]; unfold new_response;
    try destruct (rs_body rs); cbn [outcome_world fs fds sinks sent set_sent set_bodies];
    (split; [done|]); (split; [done|]); (split; [done|]);
    right; exists q, c; done.
Qed.

Lemma io_ReadAll_frame (file : option io_Reader) (w : World) :
  fs (outcome_world (io_ReadAll file w)) = fs w /\
  fds (outcome_world (io_ReadAll file w)) = fds w /\
  sinks (outcome_world (io_ReadAll file w)) = sinks w /\
  sent (outcome_world (io_ReadAll file w)) = sent w /\
  next_boundary (outcome_world (io_ReadAll file w)) = next_boundary w.
Proof. unfold io_ReadAll. split_cases; done. Qed.

(** The same for the upload branch. *)
Lemma execute_upload_request ext r pb file w :
  fs (outcome_world (execute_upload ext r pb file w)) = fs w /\
  fds (outcome_world (execute_upload ext r pb file w)) = fds w /\
  sinks (outcome_world (execute_upload ext r pb file w)) = sinks w /\
  (sent (outcome_world (execute_upload ext r pb file w)) = sent w \/
   exists q c ct,
     sent (outcome_world (execute_upload ext r pb file w)) = sent w ++ [q] /\
     client r = Some c /\
     req_method q = "POST" /\ req_context q = context r /\
     req_header q = request_headers ext r c ct).
Proof.
  unfold execute_upload. unfold bind at 1. unfold multipart_NewWriter.
  cbv beta iota zeta. cbn [CreateFormFile].
  destruct (io_ReadAll_frame file w) as (F1 & F2 & F3 & F4 & _).
  unfold bind.
  destruct (io_ReadAll file w) as [[data [e|]] w1|w1];
    cbn [outcome_world ret] in *; try (by repeat split; try left).
  cbn [WriteField FormWriter_Close]. cbv beta iota.
  match goal with |- context [execute_send ext r ?u ?c ?b w1] =>
    destruct (execute_send_request ext r u c b w1) as (S1 & S2 & S3 & S4);
    set (o := execute_send ext r u c b w1) in *; set (ct := c) in *
  end.
  rewrite S1, S2, S3, F1, F2, F3. repeat split.
  destruct S4 as [S4|(q & c & S4 & Hc & H1 & _ & _ & H2 & H3)]; rewrite S4, F4;
    [by left|].
  right. by exists q, c, ct.
Qed.

Lemma list_insert_last {A : Type} (l : list A) (x y : A) :
  <[length l := y]> (l ++ [x]) = l ++ [y].
Proof. by rewrite insert_app_r_alt, Nat.sub_diag. Qed.

(** The same for [execute] as a whole; the input file of a path source is
    opened, read and closed. *)
Lemma execute_request ext r w :
  files_settled w (outcome_world (execute ext r w)) /\
  sinks (outcome_world (execute ext r w)) = sinks w /\
  (sent (outcome_world (execute ext r w)) = sent w \/
   exists q c ct,
     sent (outcome_world (execute ext r w)) = sent w ++ [q] /\
     client r = Some c /\
     req_method q = "POST" /\ req_context q = context r /\
     req_header q = request_headers ext r c ct).
Proof.
  assert (Hrefl : forall w0, files_settled w0 w0).
  { intros w0. split; [reflexivity|]. exists []. by rewrite app_nil_r. }
  assert (Hsame : forall w0 w', fs w' = fs w0 -> fds w' = fds w0 -> files_settled w0 w').
  { intros w0 w' H1 H2. split; [exact H1|]. exists []. by rewrite app_nil_r. }
  unfold execute. destruct (json_Marshal ext (build_params r)) as [pb [e|]];
    [split; [apply Hrefl|by split; [|left]]|].
  destruct (bool_decide (source r = fetchSource)).
  { destruct (execute_send_request ext r (apiURL +:+ "/fetch") "application/json"
                (BytesBody pb) w) as (S1 & S2 & S3 & S4).
    split; [by apply Hsame|]. split; [exact S3|].
    destruct S4 as [S4|(q & c & S4 & Hc & H1 & _ & _ & H2 & H3)]; [by left|].
    right. by exists q, c, "application/json". }
  destruct (bool_decide (source r = readerSource) || bool_decide (source r = pathSource));
    [|split; [apply Hrefl|by split; [|left]]].
  destruct (bool_decide (source r = readerSource)).
  { destruct (execute_upload_request ext r pb (StreamReader <$> reader r) w)
      as (S1 & S2 & S3 & S4).
    split; [by apply Hsame|]. by split. }
  destruct (bool_decide (source r = pathSource)).
  2:{ destruct (execute_upload_request ext r pb None w) as (S1 & S2 & S3 & S4).
      split; [by apply Hsame|]. by split. }
  unfold bind, os_OpenFile.
  change (has_flag O_RDONLY O_TRUNC) with false.
  change (has_flag O_RDONLY O_WRONLY || has_flag O_RDONLY O_RDWR) with false.
  change (has_flag O_RDONLY O_CREATE) with false.
  cbv beta iota zeta.
  assert (Hopened : forall w1,
            fs w1 = fs w -> fds w1 = fds w -> sinks w1 = sinks w -> sent w1 = sent w ->
            let o := (let '(fd, w') := new_fd (location r) w1 in
                      Ret (Some fd, None : option error) w') in
            let o' := match o with
                      | Ret (fs0, err) w' =>
                          match err with
                          | Some e => ret (None, Some e) w'
                          | None =>
                              defer (File_Close fs0)
                                (execute_upload ext r pb (Some (FileReader fs0))) w'
                          end
                      | Panic w' => Panic w'
                      end in
            files_settled w (outcome_world o') /\
            sinks (outcome_world o') = sinks w /\
            (sent (outcome_world o') = sent w \/
             exists q c ct,
               sent (outcome_world o') = sent w ++ [q] /\
               client r = Some c /\
               req_method q = "POST" /\ req_context q = context r /\
               req_header q = request_headers ext r c ct)).
  { intros w1 E1 E2 E3 E4. unfold new_fd. cbv zeta beta iota.
    set (w2 := set_fds _ w1).
    destruct (execute_upload_request ext r pb
                (Some (FileReader (Some (length (fds w1))))) w2)
      as (S1 & S2 & S3 & S4).
    unfold defer.
    assert (Hclose : forall w3, fs w3 = fs w2 -> fds w3 = fds w2 ->
              File_Close (Some (length (fds w1))) w3
                = Ret tt (set_fds (fds w ++ [{| fd_path := location r;
                                                 fd_closed := true |}]) w3)).
    { intros w3 H1 H2. unfold File_Close. rewrite H2. subst w2. cbn [fds set_fds].
      rewrite list_lookup_middle by done. cbn [fd_path].
      by rewrite list_insert_last, E2. }
    assert (Hset : forall w3, fs w3 = fs w2 ->
              files_settled w
                (set_fds (fds w ++ [{| fd_path := location r;
                                       fd_closed := true |}]) w3)).
    { intros w3 H1. split; [cbn [fs set_fds]; by rewrite H1|].
      eexists. split; [reflexivity|]. by repeat constructor. }
    destruct (execute_upload ext r pb (Some (FileReader (Some (length (fds w1))))) w2)
      as [x w3|w3]; cbn [outcome_world] in *;
      rewrite (Hclose w3 S1 S2); cbn [outcome_world sinks sent set_fds];
      (split; [by apply Hset|]); (split; [by rewrite S3|]);
      (destruct S4 as [S4|S4]; [left; by rewrite S4|right; by rewrite <- E4]). }
  destruct (fs w !! location r) as [[mode content|]|] eqn:Hfile.
  - apply Hopened; cbn [fs fds sinks sent set_fs]; try done.
    by apply insert_id.
  - by apply Hopened.
  - cbn [outcome_world ret]. split; [apply Hrefl|]. by split; [|left].
Qed.

Lemma close_unless_frame (b : bool) (resp : option Response) (w : World) :
  fs (outcome_world (close_unless b resp w)) = fs w /\
  fds (outcome_world (close_unless b resp w)) = fds w /\
  sinks (outcome_world (close_unless b resp w)) = sinks w /\
  sent (outcome_world (close_unless b resp w)) = sent w.
Proof. unfold close_unless, Body_Close, ret. split_cases; done. Qed.

(** [ToReader] ends where it started (rejection) or where [execute] ended,
    the body closed or not. *)
Lemma ToReader_world ext r w :
  outcome_world (ToReader ext r w) = w \/
  exists flag resp,
    outcome_world (ToReader ext r w)
      = outcome_world (close_unless flag resp
                         (outcome_world (execute ext (binary_request r) w))).
Proof.
  unfold ToReader. destruct (webhook r); [by left|]. destruct (store r); [by left|].
  right. cbv zeta. unfold bind.
  destruct (execute ext (binary_request r) w) as [[resp err] w1|w1];
    [|by exists true, None].
  cbv beta iota. unfold defer_reading.
  match goal with |- context [match ?b w1 with Ret _ _ => _ | Panic _ => _ end] =>
    set (body := b) end.
  assert (Hbody : (exists flag x, body w1 = Ret (flag, x) w1) \/ body w1 = Panic w1).
  { subst body. split_cases; unfold ret, panic; eauto. }
  destruct Hbody as [(flag & x & ->)| ->].
  - exists flag, resp. rewrite (close_unless_Ret flag resp w1). reflexivity.
  - exists false, resp. rewrite (close_unless_Ret false resp w1). reflexivity.
Qed.

(** [ToJSON] adds to [execute] the reading of the body only. *)
Lemma ToJSON_world ext r w :
  fs (outcome_world (ToJSON ext r w)) = fs (outcome_world (execute ext r w)) /\
  fds (outcome_world (ToJSON ext r w)) = fds (outcome_world (execute ext r w)) /\
  sinks (outcome_world (ToJSON ext r w)) = sinks (outcome_world (execute ext r w)) /\
  sent (outcome_world (ToJSON ext r w)) = sent (outcome_world (execute ext r w)).
Proof.
  unfold ToJSON, bind.
  destruct (execute ext r w) as [[resp [e|]] w1|w1]; [done| |done].
  destruct resp as [rp|]; [|done].
  destruct (io_ReadAll_frame (BodyReader <$> resp_body rp) w1) as (F1 & F2 & F3 & F4 & _).
  destruct (io_ReadAll (BodyReader <$> resp_body rp) w1) as [[data err] w2|w2];
    cbn [outcome_world] in *; [|done].
  rewrite <- F1, <- F2, <- F3, <- F4.
  split_cases; done.
Qed.

Lemma files_settled_same (w w1 w' : World) :
  files_settled w w1 -> fs w' = fs w1 -> fds w' = fds w1 -> files_settled w w'.
Proof. intros [H1 H2] E1 E2. unfold files_settled, no_file_left_open. by rewrite E1, E2. Qed.

(** X13: [execute], [ToJSON] and [ToReader] leave the file system as it was
    (the input file of an upload is only read), leave no file open (the
    input file is closed on every path, panics included), and never touch a
    writer of the caller. *)
Theorem requests_settle_files (ext : Externals) (r : Request) (w : World) :
  (files_settled w (outcome_world (execute ext r w)) /\
   sinks (outcome_world (execute ext r w)) = sinks w) /\
  (files_settled w (outcome_world (ToJSON ext r w)) /\
   sinks (outcome_world (ToJSON ext r w)) = sinks w) /\
  (files_settled w (outcome_world (ToReader ext r w)) /\
   sinks (outcome_world (ToReader ext r w)) = sinks w).
Proof.
  split; [|split].
  - destruct (execute_request ext r w) as (H1 & H2 & _). by split.
  - destruct (execute_request ext r w) as (H1 & H2 & _).
    destruct (ToJSON_world ext r w) as (F1 & F2 & F3 & _).
    split; [by apply (files_settled_same w _ _ H1)|]. by rewrite F3.
  - destruct (ToReader_world ext r w) as [->|(flag & resp & ->)].
    + split; [|done]. split; [done|]. exists []. by rewrite app_nil_r.
    + destruct (execute_request ext (binary_request r) w) as (H1 & H2 & _).
      destruct (close_unless_frame flag resp
                  (outcome_world (execute ext (binary_request r) w)))
        as (F1 & F2 & F3 & _).
      split; [by apply (files_settled_same w _ _ H1)|]. by rewrite F3.
Qed.

Lemma sent_one_more (l : list HttpRequest) (q q' : HttpRequest) :
  (l = l ++ [q] -> False) /\ (l ++ [q'] = l ++ [q] -> q' = q).
Proof.
  split.
  - intros H. apply (f_equal length) in H. rewrite length_app in H. cbn in H. lia.
  - intros H. apply app_inv_head in H. by injection H.
Qed.

(** X10: whatever request [execute] hands to the transport is a POST, carries
    the context of the builder (none if none was set) and the header
    [Authorization: Basic base64(key:)], the key of the client with an empty
    password. *)
Theorem execute_request_identity (ext : Externals) (r : Request) (w : World)
    (q : HttpRequest) :
  sent (outcome_world (execute ext r w)) = sent w ++ [q] ->
  req_method q = "POST" /\
  req_context q = context r /\
  exists c : Client,
    client r = Some c /\
    req_header q !! "Authorization"
      = Some ["Basic " +:+ base64_Encode ext (Key c +:+ ":")].
Proof.
  intros Hq. destruct (execute_request ext r w) as (_ & _ & [H|H]).
  - rewrite H in Hq. by apply sent_one_more in Hq.
  - destruct H as (q' & c & ct & H & Hc & Hm & Hx & Hh). rewrite H in Hq.
    apply sent_one_more in Hq as <-. split; [exact Hm|]. split; [exact Hx|].
    exists c. split; [exact Hc|]. rewrite Hh. unfold request_headers.
    cbv zeta. unfold Header. by rewrite lookup_insert_eq.
Qed.

(** X11: the request [execute] sends has the header [X-Optidash-Binary: 1]
    exactly when the [response] bag has [mode] equal to the string [binary];
    and it has no header besides [Content-Type], [Authorization] and this
    one. *)
Theorem execute_binary_header (ext : Externals) (r : Request) (w : World)
    (q : HttpRequest) :
  sent (outcome_world (execute ext r w)) = sent w ++ [q] ->
  req_header q !! "X-Optidash-Binary"
    = (if wants_binary r then Some ["1"] else None) /\
  dom (req_header q)
    ⊆ ({["Content-Type"; "Authorization"; "X-Optidash-Binary"]} : gset string).
Proof.
  intros Hq. destruct (execute_request ext r w) as (_ & _ & [H|H]).
  - rewrite H in Hq. by apply sent_one_more in Hq.
  - destruct H as (q' & c & ct & H & Hc & Hm & Hx & Hh). rewrite H in Hq.
    apply sent_one_more in Hq as <-. rewrite Hh. unfold request_headers.
    destruct (wants_binary r); cbv zeta; unfold Header.
    + split; [by rewrite lookup_insert_ne, lookup_insert_eq|].
      rewrite !dom_insert_L, dom_singleton_L. intros x; set_unfold; try tauto.
    + split; [by rewrite lookup_insert_ne, lookup_singleton_ne|].
      rewrite !dom_insert_L, dom_singleton_L. intros x; set_unfold; try tauto.
Qed.

(** X8: when [json.Marshal] fails, [execute] returns its error, and when the
    source kind is none of the three constants it returns
    [ErrInvalidSourceType]; in both cases the world is untouched: no file
    was opened, nothing was sent. *)
Theorem execute_stops_before_any_effect (ext : Externals) (r : Request) (w : World) :
  (forall (pb : string) (e : error),
     json_Marshal ext (build_params r) = (pb, Some e) ->
     execute ext r w = Ret (None, Some e) w) /\
  (forall pb : string,
     json_Marshal ext (build_params r) = (pb, None) ->
     source r <> fetchSource -> source r <> readerSource -> source r <> pathSource ->
     execute ext r w = Ret (None, Some ErrInvalidSourceType) w).
Proof.
  split.
  - intros pb e Hm. unfold execute. by rewrite Hm.
  - intros pb Hm H1 H2 H3. unfold execute. rewrite Hm.
    by rewrite !bool_decide_eq_false_2.
Qed.

Lemma os_OpenFile_cases (name : string) (flag perm : Z) (w : World) :
  (exists e, os_OpenFile name flag perm w = Ret (None, Some e) w) \/
  (exists w', os_OpenFile name flag perm w = Ret (Some (length (fds w)), None) w' /\
              fds w' = fds w ++ [{| fd_path := name; fd_closed := false |}]).
Proof.
  unfold os_OpenFile, new_fd. split_cases; eauto.
Qed.

(** X9: an upload whose input cannot be read stops before the transport. A
    reader that fails with [e] makes [execute] return [e]; a file that
    [os.OpenFile] fails to open with [e] makes it return [e], and for a path
    that does not exist that is the error [no such file or directory]. The
    world is untouched in each case: nothing is sent. *)
Theorem execute_unreadable_input (ext : Externals) (r : Request) (w : World)
    (pb : string) :
  json_Marshal ext (build_params r) = (pb, None) ->
  (source r = readerSource ->
     forall (s : InStream) (e : error),
       reader r = Some s -> in_err s = Some e ->
       execute ext r w = Ret (None, Some e) w) /\
  (source r = pathSource ->
     forall (file : option nat) (e : error) (w1 : World),
       os_OpenFile (location r) O_RDONLY 384 w = Ret (file, Some e) w1 ->
       execute ext r w = Ret (None, Some e) w /\ w1 = w) /\
  (source r = pathSource ->
     fs w !! location r = None ->
     os_OpenFile (location r) O_RDONLY 384 w
       = Ret (None, Some (ExternalError "open: no such file or directory")) w /\
     execute ext r w
       = Ret (None, Some (ExternalError "open: no such file or directory")) w).
Proof.
  intros Hm.
  assert (Hpath : source r = pathSource ->
            forall (file : option nat) (e : error) (w1 : World),
              os_OpenFile (location r) O_RDONLY 384 w = Ret (file, Some e) w1 ->
              execute ext r w = Ret (None, Some e) w /\ w1 = w).
  { intros Hsrc file e w1 Ho.
    assert (Hw : w1 = w).
    { destruct (os_OpenFile_cases (location r) O_RDONLY 384 w)
        as [[e' He']|(w' & He' & _)]; rewrite He' in Ho; by simplify_eq. }
    subst w1. split; [|reflexivity].
    unfold execute. rewrite Hm, Hsrc.
    rewrite (bool_decide_eq_false_2 (pathSource = fetchSource)) by done.
    rewrite (bool_decide_eq_false_2 (pathSource = readerSource)) by done.
    rewrite (bool_decide_eq_true_2 (pathSource = pathSource)) by done.
    cbn [orb]. by go_step Ho. }
  split; [|split].
  - intros Hsrc s e Hr He. unfold execute. rewrite Hm, Hsrc, Hr.
    rewrite (bool_decide_eq_false_2 (readerSource = fetchSource)) by done.
    rewrite (bool_decide_eq_true_2 (readerSource = readerSource)) by done.
    cbn [orb fmap option_fmap option_map]. unfold execute_upload.
    unfold bind at 1. unfold multipart_NewWriter. cbv beta iota zeta.
    cbn [CreateFormFile]. unfold bind, io_ReadAll. by rewrite He.
  - exact Hpath.
  - intros Hsrc Hf.
    assert (Ho : os_OpenFile (location r) O_RDONLY 384 w
                 = Ret (None, Some (ExternalError "open: no such file or directory")) w).
    { unfold os_OpenFile. rewrite Hf.
      change (has_flag O_RDONLY O_CREATE) with false. reflexivity. }
    split; [exact Ho|]. exact (proj1 (Hpath Hsrc _ _ _ Ho)).
Qed.

(** X17: every request [ToReader] sends carries [X-Optidash-Binary: 1],
    whatever the builder held before. *)
Theorem ToReader_asks_for_binary (ext : Externals) (r : Request) (w : World)
    (q : HttpRequest) :
  sent (outcome_world (ToReader ext r w)) = sent w ++ [q] ->
  req_header q !! "X-Optidash-Binary" = Some ["1"].
Proof.
  intros Hq. destruct (ToReader_world ext r w) as [H|(flag & resp & H)]; rewrite H in Hq.
  - by apply sent_one_more in Hq.
  - destruct (close_unless_frame flag resp
                (outcome_world (execute ext (binary_request r) w))) as (_ & _ & _ & F).
    rewrite F in Hq.
    by destruct (execute_binary_header ext (binary_request r) w q Hq) as [-> _].
Qed.

Lemma io_Write_fds (dst : option io_Writer) (data : string) (w : World) :
  fds (outcome_world (io_Write dst data w)) = fds w.
Proof. unfold io_Write. split_cases; reflexivity. Qed.

Lemma io_Copy_fds (dst : option io_Writer) (src : option io_Reader) (w : World) :
  fds (outcome_world (io_Copy dst src w)) = fds w.
Proof.
  unfold io_Copy, bind.
  destruct (io_ReadAll_frame src w) as (_ & F & _).
  destruct (io_ReadAll src w) as [[data rerr] w1|w1]; cbn [outcome_world] in *; [|done].
  rewrite <- F. pose proof (io_Write_fds dst data w1) as Hw.
  destruct (io_Write dst data w1) as [werr w2|w2]; exact Hw.
Qed.

(** X19: [ToFile] leaves no file open: whatever path it takes (rejection,
    failed request, failed open, failed copy, success, panic), every file
    opened during the call is closed when it ends. *)
Theorem ToFile_leaves_no_file_open (ext : Externals) (r : Request)
    (path : string) (perm : Z) (w : World) :
  no_file_left_open w (outcome_world (ToFile ext r path perm w)).
Proof.
  destruct (requests_settle_files ext r w) as (_ & _ & [[_ HR] _]).
  unfold ToFile, bind.
  destruct (ToReader ext r w) as [[[meta reader] [e|]] w1|w1];
    cbn [outcome_world] in *; try exact HR.
  destruct (os_OpenFile_cases path (Z.lor (Z.lor O_CREATE O_RDWR) O_TRUNC) perm w1)
    as [[e ->]|(w2 & -> & Hfds)]; [exact HR|].
  cbv beta iota. unfold defer.
  pose proof (io_Copy_fds (Some (FileWriter (Some (length (fds w1)))))
                (BodyReader <$> reader) w2) as Hc.
  assert (Hclose : forall w3, fds w3 = fds w2 ->
            File_Close (Some (length (fds w1))) w3
              = Ret tt (set_fds (fds w1 ++ [{| fd_path := path; fd_closed := true |}]) w3)).
  { intros w3 H. unfold File_Close. rewrite H, Hfds.
    rewrite list_lookup_middle by done. cbn [fd_path].
    by rewrite list_insert_last. }
  assert (Hdone : forall w3,
            no_file_left_open w
              (set_fds (fds w1 ++ [{| fd_path := path; fd_closed := true |}]) w3)).
  { intros w3. destruct HR as (new & Hn & Hall).
    exists (new ++ [{| fd_path := path; fd_closed := true |}]).
    cbn [fds set_fds]. rewrite Hn, app_assoc. split; [done|].
    apply Forall_app. split; [exact Hall|]. by repeat constructor. }
  unfold bind in *.
  destruct (io_Copy (Some (FileWriter (Some (length (fds w1))))) (BodyReader <$> reader) w2)
    as [[e|] w3|w3]; cbn [outcome_world] in Hc; unfold ret;
    rewrite (Hclose w3 Hc); apply Hdone.
Qed.

Lemma io_ReadAll_unread (h : nat) (w : World) (st : BodyState) :
  bodies w !! h = Some st -> b_closed st = false -> b_consumed st = false ->
  io_ReadAll (Some (BodyReader h)) w
    = Ret (b_data st, b_err st) (set_bodies (<[h := read_body st]> (bodies w)) w).
Proof. intros Hl Hc Hr. unfold io_ReadAll. by rewrite Hl, Hc, Hr. Qed.

(** X20: when the output file can be opened and the stream breaks off with
    [e] after some bytes, [ToFile] returns [e] with nil metadata and leaves
    the file behind: holding exactly the bytes received so far, whatever it
    held before, and closed. *)
Theorem ToFile_broken_stream (ext : Externals) (r : Request) (w : World)
    (meta : option Value) (h : nat) (w1 : World) (st : BodyState)
    (path : string) (perm : Z) (e : error) (fd : nat) (w2 : World) :
  ToReader ext r w = Ret (meta, Some h, None) w1 ->
  bodies w1 !! h = Some st ->
  b_closed st = false -> b_consumed st = false -> b_err st = Some e ->
  os_OpenFile path (Z.lor (Z.lor O_CREATE O_RDWR) O_TRUNC) perm w1
    = Ret (Some fd, None) w2 ->
  exists w',
    ToFile ext r path perm w = Ret (None, Some e) w' /\
    file_content w' path = Some (b_data st) /\
    fds w' !! fd = Some {| fd_path := path; fd_closed := true |}.
Proof.
  intros HR Hl Hc Hu He Hopen. unfold ToFile. go_step HR.
  cbn [fmap option_fmap option_map].
  destruct (os_OpenFile_truncating path perm w1 fd w2 Hopen) as [-> Hw2].
  go_step Hopen.
  assert (Hl2 : bodies w2 !! h = Some st) by (by rewrite Hw2).
  unfold defer, io_Copy. unfold bind at 1.
  go_step (io_ReadAll_unread h w2 st Hl2 Hc Hu).
  unfold bind, io_Write. cbn [mbind option_bind fds set_bodies fs].
  rewrite Hw2. cbn [fds fs set_fds set_fs].
  rewrite list_lookup_middle by done. cbn [fd_closed fd_path].
  rewrite lookup_insert_eq. unfold ret, File_Close. rewrite He.
  cbn [fds fs set_fds set_fs set_bodies].
  rewrite list_lookup_middle by done.
  eexists. split; [reflexivity|]. unfold file_content.
  cbn [fds fs bodies set_fds set_fs set_bodies fd_path].
  split; [by rewrite lookup_insert_eq|].
  rewrite list_lookup_insert_eq; [done|]. rewrite length_app. cbn. lia.
Qed.

(** X18: when the request of [ToReader] fails, [ToFile] and [CopyTo] return
    its error with nil metadata, in the world [ToReader] left: the output
    file is neither created nor emptied, the file system and the writers of
    the caller are as before the call. *)
Theorem request_failure_stops_ToFile_and_CopyTo (ext : Externals) (r : Request)
    (w w1 : World) (meta : option Value) (body : option nat) (e : error)
    (path : string) (perm : Z) (dst : option io_Writer) :
  ToReader ext r w = Ret (meta, body, Some e) w1 ->
  ToFile ext r path perm w = Ret (None, Some e) w1 /\
  CopyTo ext r dst w = Ret (None, Some e) w1 /\
  fs w1 = fs w /\ sinks w1 = sinks w.
Proof.
  intros H. split; [unfold ToFile; by go_step H|].
  split; [unfold CopyTo; by go_step H|].
  destruct (requests_settle_files ext r w) as (_ & _ & [[Hfs _] Hs]).
  rewrite H in Hfs, Hs. by split.
Qed.

(** X14: [ToJSON] returns, with a nil result, the first error of its
    pipeline as it is: the error of [execute], else the error of reading the
    body, else the error of the parser. *)
Theorem ToJSON_returns_first_error (ext : Externals) (r : Request) (w : World)
    (e : error) :
  (forall (resp : option Response) (w1 : World),
     execute ext r w = Ret (resp, Some e) w1 ->
     ToJSON ext r w = Ret (None, Some e) w1) /\
  (forall (rp : Response) (w1 w2 : World) (data : string),
     execute ext r w = Ret (Some rp, None) w1 ->
     io_ReadAll (BodyReader <$> resp_body rp) w1 = Ret (data, Some e) w2 ->
     ToJSON ext r w = Ret (None, Some e) w2) /\
  (forall (rp : Response) (w1 w2 : World) (data : string) (tree : option Value),
     execute ext r w = Ret (Some rp, None) w1 ->
     io_ReadAll (BodyReader <$> resp_body rp) w1 = Ret (data, None) w2 ->
     fastjson_Parse ext data = (tree, Some e) ->
     ToJSON ext r w = Ret (None, Some e) w2).
Proof.
  split; [|split].
  - intros resp w1 He. unfold ToJSON. by go_step He.
  - intros rp w1 w2 data He Hr. unfold ToJSON. go_step He. by go_step Hr.
  - intros rp w1 w2 data tree He Hr Hp. unfold ToJSON. go_step He. go_step Hr.
    by rewrite Hp.
Qed.

(** A response that comes back from the transport has its body, if it has
    one, among the bodies of the world. *)
Lemma http_Do_body (c : option HttpClient) (q : HttpRequest) (w w1 : World)
    (rp : Response) (err : option error) (h : nat) :
  http_Do c q w = Ret (Some rp, err) w1 ->
  resp_body rp = Some h -> is_Some (bodies w1 !! h).
Proof.
  unfold http_Do. destruct c as [cl|]; [|discriminate].
  destruct (roundTrip cl q) as [rs|e [rs|]]; unfold new_response;
    try (destruct (rs_body rs) as [st|]); intros H Hb; simplify_eq/=;
    rewrite list_lookup_middle by done; eauto.
Qed.

Lemma execute_send_body ext r url ct body w rp err w1 h :
  execute_send ext r url ct body w = Ret (Some rp, err) w1 ->
  resp_body rp = Some h -> is_Some (bodies w1 !! h).
Proof.
  unfold execute_send, http_NewRequest. cbv beta iota zeta.
  destruct (client r) as [c|]; [|discriminate]. apply http_Do_body.
Qed.

Lemma execute_upload_body ext r pb file w rp err w1 h :
  execute_upload ext r pb file w = Ret (Some rp, err) w1 ->
  resp_body rp = Some h -> is_Some (bodies w1 !! h).
Proof.
  unfold execute_upload. unfold bind at 1. unfold multipart_NewWriter.
  cbv beta iota zeta. cbn [CreateFormFile]. unfold bind.
  destruct (io_ReadAll file w) as [[data [e|]] w0|w0];
    [discriminate| |discriminate].
  cbn [WriteField FormWriter_Close]. cbv beta iota. apply execute_send_body.
Qed.

Lemma execute_body ext r w rp err w1 h :
  execute ext r w = Ret (Some rp, err) w1 ->
  resp_body rp = Some h -> is_Some (bodies w1 !! h).
Proof.
  unfold execute. destruct (json_Marshal ext (build_params r)) as [pb [e|]];
    [discriminate|].
  destruct (bool_decide (source r = fetchSource)); [apply execute_send_body|].
  destruct (bool_decide (source r = readerSource) || bool_decide (source r = pathSource));
    [|discriminate].
  destruct (bool_decide (source r = readerSource)); [apply execute_upload_body|].
  destruct (bool_decide (source r = pathSource)); [|apply execute_upload_body].
  unfold bind.
  destruct (os_OpenFile (location r) O_RDONLY 384 w) as [[file [e|]] w0|w0];
    [discriminate| |discriminate].
  unfold defer.
  destruct (execute_upload ext r pb (Some (FileReader file)) w0)
    as [[resp err'] w2|w2] eqn:Hu;
    destruct (File_Close_bodies file w2) as [Hr Hbod]; rewrite Hr;
    [|discriminate].
  intros H Hb. simplify_eq. rewrite Hbod. by eapply execute_upload_body.
Qed.

(** Closing the body of a response of [execute] leaves that body closed. *)
Lemma body_closed_after ext r w rp err w1 :
  execute ext r w = Ret (Some rp, err) w1 ->
  body_closed rp (body_closed_in rp w1).
Proof.
  intros He h Hb. destruct (execute_body ext r w rp err w1 h He Hb) as [st Hl].
  exists (closed_body st). split; [|reflexivity].
  by apply body_closed_in_lookup.
Qed.

(** X15: in binary mode, an error of [execute] is returned as it is, with
    nil metadata and no stream; when a response came with the error, its
    body is closed. A metadata header that does not parse yields the error
    of the parser, and the body of the response is closed. *)
Theorem ToReader_returns_first_error (ext : Externals) (r : Request) (w : World)
    (e : error) :
  webhook r = None -> store r = None ->
  (forall w1 : World,
     execute ext (binary_request r) w = Ret (None, Some e) w1 ->
     ToReader ext r w = Ret (None, None, Some e) w1) /\
  (forall (rp : Response) (w1 : World),
     execute ext (binary_request r) w = Ret (Some rp, Some e) w1 ->
     ToReader ext r w = Ret (None, None, Some e) (body_closed_in rp w1) /\
     body_closed rp (body_closed_in rp w1)) /\
  (forall (rp : Response) (w1 : World) (tree : option Value),
     execute ext (binary_request r) w = Ret (Some rp, None) w1 ->
     Header_Get (resp_header rp) "X-Optidash-Meta" <> EmptyString ->
     fastjson_Parse ext (Header_Get (resp_header rp) "X-Optidash-Meta")
       = (tree, Some e) ->
     ToReader ext r w = Ret (None, None, Some e) (body_closed_in rp w1) /\
     body_closed rp (body_closed_in rp w1)).
Proof.
  intros Hw Hs. split; [|split].
  - intros w1 He. unfold ToReader. rewrite Hw, Hs. cbv zeta. go_step He.
    by apply defer_reading_ret.
  - intros rp w1 He. split; [|by eapply body_closed_after].
    unfold ToReader. rewrite Hw, Hs. cbv zeta. go_step He.
    by apply defer_reading_ret, close_unless_closes.
  - intros rp w1 tree He Hne Hp. split; [|by eapply body_closed_after].
    unfold ToReader. rewrite Hw, Hs. cbv zeta.
    go_step He. rewrite bool_decide_eq_true_2 by exact Hne. rewrite Hp.
    by apply defer_reading_ret, close_unless_closes.
Qed.

(** X16: after a successful exchange [ToReader] returns and does not panic,
    and it returns either a nil error with the body of the response, in the
    world the exchange left (the body untouched), or an error with nil
    metadata and no body, the body of the response closed and nothing else
    changed. It never returns a stream together with an error. *)
Theorem ToReader_stream_or_error (ext : Externals) (r : Request) (w : World)
    (rp : Response) (w1 : World) :
  binary_response ext r w rp w1 ->
  exists (meta : option Value) (body : option nat) (err : option error) (w' : World),
    ToReader ext r w = Ret (meta, body, err) w' /\
    ((err = None /\ body = resp_body rp /\ w' = w1) \/
     (err <> None /\ meta = None /\ body = None /\
      w' = body_closed_in rp w1 /\ body_closed rp w')).
Proof.
  intros Hb. destruct (ToReader_outcome ext r w rp w1 Hb) as [[meta H]|[e H]].
  - exists meta, (resp_body rp), None, w1. split; [exact H|]. by left.
  - exists None, None, (Some e), (body_closed_in rp w1). split; [exact H|].
    right. do 4 (split; [done|]).
    destruct Hb as (_ & _ & He). by eapply body_closed_after.
Qed.

(** X12: a builder whose transport was set to nil with [HTTPClient] panics
    when a fetch reaches the sending, the world untouched: [execute] has no
    guard for a nil transport. *)
Theorem nil_transport_panics (ext : Externals) (r : Request) (w : World)
    (c : Client) (pb : string) :
  client r = Some c ->
  json_Marshal ext (build_params r) = (pb, None) ->
  source r = fetchSource ->
  execute ext (HTTPClient r None) w = Panic w.
Proof.
  intros Hc Hm Hs. unfold execute.
  change (build_params (HTTPClient r None)) with (build_params r).
  change (source (HTTPClient r None)) with (source r).
  rewrite Hm, Hs. rewrite bool_decide_eq_true_2 by done.
  unfold execute_send, http_NewRequest. cbv beta iota zeta.
  change (client (HTTPClient r None)) with (client r). rewrite Hc.
  reflexivity.
Qed.

(** X21: on the same successful answer, when the output file can be opened,
    [ToFile] and [CopyTo] deliver the same bytes and the same metadata: the
    file ends up holding exactly the bytes of the stream, the writer has them
    appended to what it held and is not closed. *)
Theorem ToFile_and_CopyTo_deliver_same_bytes (ext : Externals) (r : Request)
    (w : World) (meta : option Value) (h : nat) (w1 : World) (st : BodyState)
    (k : nat) (sk : SinkState) (path : string) (perm : Z) (fd : nat) (w2 : World) :
  ToReader ext r w = Ret (meta, Some h, None) w1 ->
  bodies w1 !! h = Some st -> fresh st ->
  sinks w1 !! k = Some sk -> s_limit sk = None ->
  os_OpenFile path (Z.lor (Z.lor O_CREATE O_RDWR) O_TRUNC) perm w1
    = Ret (Some fd, None) w2 ->
  exists wf wc : World,
    ToFile ext r path perm w = Ret (meta, None) wf /\
    CopyTo ext r (Some (SinkWriter k)) w = Ret (meta, None) wc /\
    file_content wf path = Some (b_data st) /\
    s_written <$> sinks wc !! k = Some (s_written sk +:+ b_data st) /\
    s_closed <$> sinks wc !! k = Some (s_closed sk).
Proof.
  intros HR Hl Hf Hk Hlim Hopen.
  destruct (ToFile_writes ext r w meta h w1 st path perm fd w2 HR Hl Hf Hopen)
    as (wf & HF & Hfile & _).
  destruct (CopyTo_copies ext r w meta h w1 st k sk HR Hl Hf Hk Hlim)
    as (wc & HC & Hsink & _).
  exists wf, wc. split; [exact HF|]. split; [exact HC|].
  split; [unfold file_content; by rewrite Hfile|]. by rewrite Hsink.
Qed.

(** ** The further properties on concrete builders *)

(** X1 on the empty key and on the key of the README. *)
Lemma NewClient_key_witness :
  (fst (NewClient libs EmptyString) = None /\
   snd (NewClient libs EmptyString) <> None) /\
  NewClient libs "your-api-key" = (Some client0, None).
Proof.
  split.
  - exact (proj1 (NewClient_key libs EmptyString) eq_refl).
  - refine (proj2 (NewClient_key libs "your-api-key") _). discriminate.
Defined.

(** X2 on the URL and the path of the README. *)
Lemma fresh_builder_payload_witness :
  build_params (Fetch client0 image_url) = {["url" := AString image_url]} /\
  build_params path_upload = ∅.
Proof.
  split.
  - exact (proj1 (fresh_builder_payload client0 image_url (InputPath "in.jpg")
                    path_upload)).
  - exact (proj2 (fresh_builder_payload client0 image_url (InputPath "in.jpg")
                    path_upload) eq_refl).
Defined.

Lemma resize_is_a_setter : ("resize", Resize) ∈ step_setters.
Proof. unfold step_setters, serialized_setters. do 2 constructor. constructor. Qed.

Lemma crop_is_a_setter : ("crop", Crop) ∈ step_setters.
Proof. unfold step_setters, serialized_setters. do 4 constructor. constructor. Qed.

Lemma resize_is_serialized : ("resize", Resize) ∈ serialized_setters.
Proof. unfold serialized_setters. constructor. Qed.

(** X3 on [Upload("in.jpg").Resize(...).Context(ctx)]. *)
Lemma exported_builder_invariant_witness :
  response resized_upload = None /\
  client resized_upload <> None /\
  (source resized_upload = readerSource \/ source resized_upload = pathSource \/
   source resized_upload = fetchSource) /\
  (source resized_upload = readerSource <-> reader resized_upload <> None).
Proof.
  apply exported_builder_invariant. unfold resized_upload.
  apply exported_Context.
  apply (exported_step "resize" Resize); [exact resize_is_a_setter|].
  by apply (exported_Upload client0 (InputPath "in.jpg")).
Defined.


(** X5 on [Resize] and [Crop]. *)
Lemma setters_commute_witness :
  Resize (Crop path_upload (Some {["mode" := AString "center"]}))
         (Some {["width" := AInt 100]})
    = Crop (Resize path_upload (Some {["width" := AInt 100]}))
           (Some {["mode" := AString "center"]}).
Proof.
  refine (setters_commute "resize" "crop" Resize Crop _ _ _
            resize_is_a_setter crop_is_a_setter _).
  discriminate.
Defined.

(** X6 on [Resize] with a bag, at its own key and at another. *)
Lemma setter_then_payload_witness :
  build_params (Resize path_upload (Some {["width" := AInt 100]})) !! "resize"
    = (if decide ("resize" = "resize")
       then AMap <$> Some {["width" := AInt 100]}
       else build_params path_upload !! "resize") /\
  build_params (Resize path_upload None) !! "crop"
    = (if decide ("crop" = "resize")
       then AMap <$> None
       else build_params path_upload !! "crop").
Proof.
  split.
  - exact (setter_then_payload "resize" Resize path_upload _ "resize"
             resize_is_serialized).
  - exact (setter_then_payload "resize" Resize path_upload None "crop"
             resize_is_serialized).
Defined.

(** X8 on a bag that does not encode and on an unknown source kind. *)
Lemma execute_stops_before_any_effect_witness :
  execute libs unencodable_fetch world0
    = Ret (None, Some (ExternalError "json: unsupported type")) world0 /\
  execute libs odd_source world0 = Ret (None, Some ErrInvalidSourceType) world0.
Proof.
  split.
  - refine (proj1 (execute_stops_before_any_effect libs unencodable_fetch world0)
              EmptyString _ _).
    by vm_compute.
  - refine (proj2 (execute_stops_before_any_effect libs odd_source world0)
              "{}" _ _ _ _); [by vm_compute| | |]; by vm_compute.
Defined.

(** X9 on a reader that fails and on a path that does not exist. *)
Lemma execute_unreadable_input_witness :
  execute libs failing_stream_upload world0
    = Ret (None, Some (ExternalError "read failed")) world0 /\
  (os_OpenFile (location missing_upload) O_RDONLY 384 world0
     = Ret (None, Some (ExternalError "open: no such file or directory")) world0 /\
   execute libs missing_upload world0
     = Ret (None, Some (ExternalError "open: no such file or directory")) world0) /\
  sent (outcome_world (execute libs missing_upload world0)) = [].
Proof.
  split; [|split; [|by vm_compute]].
  - refine (proj1 (execute_unreadable_input libs failing_stream_upload world0
                     "{}" _) _ _ _ _ _); [by vm_compute|reflexivity|reflexivity|reflexivity].
  - refine (proj2 (proj2 (execute_unreadable_input libs missing_upload world0
                            "{}" _)) _ _); [by vm_compute|reflexivity|by vm_compute].
Defined.

Lemma resized_upload_sent :
  sent (outcome_world (execute libs resized_upload world0))
    = sent world0 ++ [resized_upload_request].
Proof. by vm_compute. Qed.

Lemma image_fetch_sent :
  sent (outcome_world (ToReader libs image_fetch world0))
    = sent world0 ++ [image_fetch_request].
Proof. by vm_compute. Qed.

Lemma image_fetch_binary_sent :
  sent (outcome_world (execute libs (binary_request image_fetch) world0))
    = sent world0 ++ [image_fetch_request].
Proof. by vm_compute. Qed.

(** X10 on the upload with a context: the key [your-api-key] and the empty
    password give [eW91ci1hcGkta2V5Og==]. *)
Lemma execute_request_identity_witness :
  req_method resized_upload_request = "POST" /\
  req_context resized_upload_request = context resized_upload /\
  exists c : Client,
    client resized_upload = Some c /\
    req_header resized_upload_request !! "Authorization"
      = Some ["Basic " +:+ base64_Encode libs (Key c +:+ ":")].
Proof.
  exact (execute_request_identity libs resized_upload world0
           resized_upload_request resized_upload_sent).
Defined.

(** X11 on a JSON-mode upload (no header) and a binary-mode fetch (header). *)
Lemma execute_binary_header_witness :
  (req_header resized_upload_request !! "X-Optidash-Binary"
     = (if wants_binary resized_upload then Some ["1"] else None) /\
   wants_binary resized_upload = false) /\
  (req_header image_fetch_request !! "X-Optidash-Binary"
     = (if wants_binary (binary_request image_fetch) then Some ["1"] else None) /\
   wants_binary (binary_request image_fetch) = true).
Proof.
  split; (split; [|reflexivity]).
  - exact (proj1 (execute_binary_header libs resized_upload world0
                    resized_upload_request resized_upload_sent)).
  - exact (proj1 (execute_binary_header libs (binary_request image_fetch) world0
                    image_fetch_request image_fetch_binary_sent)).
Defined.

(** X12 on a fetch builder with no transport. *)
Lemma nil_transport_panics_witness :
  execute libs no_transport_fetch world0 = Panic world0.
Proof.
  refine (nil_transport_panics libs (Fetch client0 image_url) world0 client0
            _ _ _ _); [reflexivity|by vm_compute|reflexivity].
Defined.

(** X14 on a refused connection, a body that breaks off and a body that is
    not JSON. *)
Lemma ToJSON_returns_first_error_witness :
  ToJSON libs refused_fetch world0
    = Ret (None, Some (ExternalError "connection refused"))
        (outcome_world (execute libs refused_fetch world0)) /\
  ToJSON libs broken_json_fetch world0
    = Ret (None, Some (ExternalError "unexpected EOF"))
        (outcome_world (ToJSON libs broken_json_fetch world0)) /\
  ToJSON libs garbled_fetch world0
    = Ret (None, Some (ExternalError "cannot parse JSON"))
        (outcome_world (ToJSON libs garbled_fetch world0)).
Proof.
  split; [|split].
  - refine (proj1 (ToJSON_returns_first_error libs refused_fetch world0 _) None _ _).
    by vm_compute.
  - refine (proj1 (proj2 (ToJSON_returns_first_error libs broken_json_fetch world0 _))
              (first_response ∅)
              (outcome_world (execute libs broken_json_fetch world0)) _
              json_success _ _); by vm_compute.
  - refine (proj2 (proj2 (ToJSON_returns_first_error libs garbled_fetch world0 _))
              (first_response (meta_of "not json"))
              (outcome_world (execute libs garbled_fetch world0)) _
              "not json" None _ _ _); by vm_compute.
Defined.

(** X15 on a refused connection (no response), a failed redirect (the
    response came with the error) and a header that is not JSON: in the last
    two the one body of the world is closed. *)
Lemma ToReader_returns_first_error_witness :
  ToReader libs refused_fetch world0
    = Ret (None, None, Some (ExternalError "connection refused"))
        (outcome_world (execute libs (binary_request refused_fetch) world0)) /\
  ((ToReader libs redirected_fetch world0
      = Ret (None, None, Some (ExternalError "stopped after 10 redirects"))
          (body_closed_in (first_response ∅)
             (outcome_world (execute libs (binary_request redirected_fetch) world0))) /\
    body_closed (first_response ∅)
      (body_closed_in (first_response ∅)
         (outcome_world (execute libs (binary_request redirected_fetch) world0)))) /\
   b_closed <$> bodies (outcome_world (ToReader libs redirected_fetch world0)) = [true]) /\
  ((ToReader libs garbled_fetch world0
      = Ret (None, None, Some (ExternalError "cannot parse JSON"))
          (body_closed_in (first_response (meta_of "not json"))
             (outcome_world (execute libs (binary_request garbled_fetch) world0))) /\
    body_closed (first_response (meta_of "not json"))
      (body_closed_in (first_response (meta_of "not json"))
         (outcome_world (execute libs (binary_request garbled_fetch) world0)))) /\
   b_closed <$> bodies (outcome_world (execute libs (binary_request garbled_fetch) world0))
     = [false] /\
   b_closed <$> bodies (outcome_world (ToReader libs garbled_fetch world0)) = [true]).
Proof.
  split; [|split; (split; [|by vm_compute])].
  - refine (proj1 (ToReader_returns_first_error libs refused_fetch world0 _ _ _)
              _ _); [reflexivity|reflexivity|by vm_compute].
  - refine (proj1 (proj2 (ToReader_returns_first_error libs redirected_fetch world0
                            _ _ _))
              (first_response ∅) _ _);
      [reflexivity|reflexivity|by vm_compute].
  - refine (proj2 (proj2 (ToReader_returns_first_error libs garbled_fetch world0 _ _ _))
              (first_response (meta_of "not json")) _ None _ _ _);
      [reflexivity|reflexivity|by vm_compute|by vm_compute|by vm_compute].
Defined.

Lemma image_fetch_binary_response :
  binary_response libs image_fetch world0 (first_response (meta_of json_success))
    (outcome_world (execute libs (binary_request image_fetch) world0)).
Proof. vm_compute. repeat split. Qed.

Lemma failing_fetch_binary_response :
  binary_response libs failing_fetch world0 (first_response (meta_of json_failure))
    (outcome_world (execute libs (binary_request failing_fetch) world0)).
Proof. vm_compute. repeat split. Qed.

(** X16 on the answer with an image (the stream comes back, open) and on the
    failure envelope (an error, and the body is closed). *)
Lemma ToReader_stream_or_error_witness :
  (exists (meta : option Value) (body : option nat) (err : option error) (w' : World),
     ToReader libs image_fetch world0 = Ret (meta, body, err) w' /\
     ((err = None /\ body = resp_body (first_response (meta_of json_success)) /\
       w' = outcome_world (execute libs (binary_request image_fetch) world0)) \/
      (err <> None /\ meta = None /\ body = None /\
       w' = body_closed_in (first_response (meta_of json_success))
              (outcome_world (execute libs (binary_request image_fetch) world0)) /\
       body_closed (first_response (meta_of json_success)) w'))) /\
  (exists (meta : option Value) (body : option nat) (err : option error) (w' : World),
     ToReader libs failing_fetch world0 = Ret (meta, body, err) w' /\
     ((err = None /\ body = resp_body (first_response (meta_of json_failure)) /\
       w' = outcome_world (execute libs (binary_request failing_fetch) world0)) \/
      (err <> None /\ meta = None /\ body = None /\
       w' = body_closed_in (first_response (meta_of json_failure))
              (outcome_world (execute libs (binary_request failing_fetch) world0)) /\
       body_closed (first_response (meta_of json_failure)) w'))) /\
  outcome_value (ToReader libs image_fetch world0)
    = Some (Some (VObject [("success", VTrue)]), Some 0%nat, None) /\
  b_closed <$> bodies (outcome_world (ToReader libs image_fetch world0)) = [false] /\
  outcome_value (ToReader libs failing_fetch world0)
    = Some (None, None, Some (OptidashError 42 "bad input")) /\
  b_closed <$> bodies (outcome_world (ToReader libs failing_fetch world0)) = [true].
Proof.
  split; [|split; [|by vm_compute]].
  - exact (ToReader_stream_or_error libs image_fetch world0 _ _
             image_fetch_binary_response).
  - exact (ToReader_stream_or_error libs failing_fetch world0 _ _
             failing_fetch_binary_response).
Defined.

(** X17 on the fetch of an image. *)
Lemma ToReader_asks_for_binary_witness :
  req_header image_fetch_request !! "X-Optidash-Binary" = Some ["1"].
Proof.
  exact (ToReader_asks_for_binary libs image_fetch world0 image_fetch_request
           image_fetch_sent).
Defined.

(** X18 on the failure envelope: the file [old.png] keeps its content. *)
Lemma request_failure_stops_ToFile_and_CopyTo_witness :
  (ToFile libs failing_fetch "old.png" 420 world0
     = Ret (None, Some (OptidashError 42 "bad input"))
         (outcome_world (ToReader libs failing_fetch world0)) /\
   CopyTo libs failing_fetch (Some (SinkWriter 0)) world0
     = Ret (None, Some (OptidashError 42 "bad input"))
         (outcome_world (ToReader libs failing_fetch world0)) /\
   fs (outcome_world (ToReader libs failing_fetch world0)) = fs world0 /\
   sinks (outcome_world (ToReader libs failing_fetch world0)) = sinks world0) /\
  fs (outcome_world (ToFile libs failing_fetch "old.png" 420 world0)) !! "old.png"
    = Some (RegFile 384 "OLD").
Proof.
  split; [|by vm_compute].
  refine (request_failure_stops_ToFile_and_CopyTo libs failing_fetch world0 _
            None None _ "old.png" 420 (Some (SinkWriter 0)) _).
  by vm_compute.
Defined.

(** X20 on a stream that breaks off after [PNG]: what [old.png] held is
    gone. *)
Lemma ToFile_broken_stream_witness :
  file_content world0 "old.png" = Some "OLD" /\
  exists w' : World,
    ToFile libs broken_fetch "old.png" 420 world0
      = Ret (None, Some (ExternalError "unexpected EOF")) w' /\
    file_content w' "old.png"
      = Some (b_data {| b_data := "PNG";
                        b_err := Some (ExternalError "unexpected EOF");
                        b_consumed := false; b_closed := false |}) /\
    fds w' !! 0%nat = Some {| fd_path := "old.png"; fd_closed := true |}.
Proof.
  split; [reflexivity|].
  refine (ToFile_broken_stream libs broken_fetch world0
            (Some (VObject [("success", VTrue)])) 0
            (outcome_world (ToReader libs broken_fetch world0))
            {| b_data := "PNG"; b_err := Some (ExternalError "unexpected EOF");
               b_consumed := false; b_closed := false |}
            "old.png" 420 (ExternalError "unexpected EOF") 0
            (outcome_world
               (os_OpenFile "old.png" (Z.lor (Z.lor O_CREATE O_RDWR) O_TRUNC) 420
                  (outcome_world (ToReader libs broken_fetch world0))))
            _ _ _ _ _ _);
    by vm_compute.
Defined.

(** X21 on the answer with an image, into [out.png] and the first writer. *)
Lemma ToFile_and_CopyTo_deliver_same_bytes_witness :
  exists wf wc : World,
    ToFile libs image_fetch "out.png" 420 world0
      = Ret (Some (VObject [("success", VTrue)]), None) wf /\
    CopyTo libs image_fetch (Some (SinkWriter 0)) world0
      = Ret (Some (VObject [("success", VTrue)]), None) wc /\
    file_content wf "out.png" = Some (b_data (fresh_body "PNGDATA")) /\
    s_written <$> sinks wc !! 0%nat
      = Some (s_written {| s_written := EmptyString; s_limit := None;
                           s_closed := false |}
              +:+ b_data (fresh_body "PNGDATA")) /\
    s_closed <$> sinks wc !! 0%nat
      = Some (s_closed {| s_written := EmptyString; s_limit := None;
                          s_closed := false |}).
Proof.
  refine (ToFile_and_CopyTo_deliver_same_bytes libs image_fetch world0
            (Some (VObject [("success", VTrue)])) 0
            (outcome_world (ToReader libs image_fetch world0))
            (fresh_body "PNGDATA") 0
            {| s_written := EmptyString; s_limit := None; s_closed := false |}
            "out.png" 420 0
            (outcome_world
               (os_OpenFile "out.png" (Z.lor (Z.lor O_CREATE O_RDWR) O_TRUNC) 420
                  (outcome_world (ToReader libs image_fetch world0))))
            _ _ _ _ _ _);
    by vm_compute.
Defined.
